(** * read-orders.py: a shallow embedding and its properties

    The script expands two fixed glob patterns against the current working
    directory, keeps the paths that contain "orders" and end in ".tsx",
    and prints each kept path followed by the text of the file (or by the
    error raised while reading it).

    Layout of the development:
    - [Str]        the Python string operations the script and glob rely on;
    - [PosixPath]  [os.path.split] and [os.path.join] (POSIX flavour);
    - [Fnmatch]    [fnmatch.translate] / [fnmatch.filter];
    - [FS]         the directory tree under the working directory;
    - [Glob]       [glob.glob] (non recursive, hidden files excluded);
    - [TextIO]     strict UTF-8 decoding and universal newlines;
    - [Py]         a state-and-exception monad: world, events, [open],
                   [read], [close], [print], [with], [try]/[except];
    - [ReadOrders] the script itself;
    - the theorems, one group per claim.

    Conventions.  A Python [str] is represented by a [string] of 8-bit
    characters; text read from a file is represented by its UTF-8 encoding,
    so that decoding a well-formed file is the identity on the
    representation.  The script is written against [glob.glob] and
    [print] as parameters; the program proper, [ReadOrders.main], runs it
    with the library's [glob.glob] and with a standard output that takes
    every line. *)

From Stdlib Require Import String Ascii List Bool Arith Lia Permutation.
Import ListNotations.

Local Open Scope string_scope.
Local Open Scope list_scope.

(* ------------------------------------------------------------------ *)
(** ** Python string operations *)

Module Str.

(** [s.startswith(p)] *)
Fixpoint startswith (s p : string) {struct p} : bool :=
  match p, s with
  | EmptyString, _ => true
  | String _ _, EmptyString => false
  | String a p', String b s' => Ascii.eqb a b && startswith s' p'
  end.

(** [sub in s] *)
Fixpoint contains (sub s : string) : bool :=
  startswith s sub ||
  match s with
  | EmptyString => false
  | String _ s' => contains sub s'
  end.

(** [s.endswith(p)] *)
Fixpoint endswith (s p : string) : bool :=
  String.eqb s p ||
  match s with
  | EmptyString => false
  | String _ s' => endswith s' p
  end.

(** [c in s] for a single character [c] *)
Fixpoint mem (c : ascii) (s : string) : bool :=
  match s with
  | EmptyString => false
  | String d s' => Ascii.eqb c d || mem c s'
  end.

(** [c * n] *)
Fixpoint repeat (c : ascii) (n : nat) : string :=
  match n with
  | O => EmptyString
  | S n' => String c (repeat c n')
  end.

Definition is_empty (s : string) : bool :=
  match s with EmptyString => true | String _ _ => false end.

(** [s.rstrip(c)] *)
Fixpoint rstrip (c : ascii) (s : string) : string :=
  match s with
  | EmptyString => EmptyString
  | String d s' =>
      let r := rstrip c s' in
      if is_empty r && Ascii.eqb d c then EmptyString else String d r
  end.

(** [(s[:i], s[i:])] for [i = s.rfind(c) + 1]: the part up to and
    including the last [c], and what follows it. *)
Fixpoint rpartition_incl (c : ascii) (s : string) : string * string :=
  match s with
  | EmptyString => (EmptyString, EmptyString)
  | String d s' =>
      let (h, t) := rpartition_incl c s' in
      if is_empty h
      then if Ascii.eqb d c then (String d EmptyString, t)
           else (EmptyString, String d t)
      else (String d h, t)
  end.

(** [s.split(c)] *)
Fixpoint split_on (c : ascii) (s : string) : list string :=
  match s with
  | EmptyString => [EmptyString]
  | String d s' =>
      match split_on c s' with
      | [] => [String d EmptyString]
      | w :: ws => if Ascii.eqb d c then EmptyString :: w :: ws
                   else String d w :: ws
      end
  end.

End Str.

(* ------------------------------------------------------------------ *)
(** ** posixpath *)

Module PosixPath.

Definition sep : ascii := "/"%char.

(** [os.path.split]: head is everything up to the last slash, with its
    trailing slashes stripped unless it consists of slashes only. *)
Definition split (p : string) : string * string :=
  let (head, tail) := Str.rpartition_incl sep p in
  let stripped := Str.rstrip sep head in
  (if Str.is_empty stripped then head else stripped, tail).

(** [os.path.join a b] *)
Definition join (a b : string) : string :=
  if Str.startswith b "/" then b
  else if Str.is_empty a || Str.endswith a "/" then a ++ b
  else a ++ "/" ++ b.

End PosixPath.

(* ------------------------------------------------------------------ *)
(** ** fnmatch *)

Module Fnmatch.

(** One element of a bracket expression. *)
Inductive item :=
| Single (c : ascii)
| Range (lo hi : ascii).

(** The compiled form of a pattern (what [translate] hands to [re]). *)
Inductive token :=
| Star                                   (* [*]   any run of characters *)
| Quest                                  (* [?]   any one character     *)
| Lit (c : ascii)                        (* an ordinary character       *)
| Class (negated : bool) (items : list item).   (* [[seq]], [[!seq]]    *)

(** The items of a bracket body: [x-y] is a range, everything else
    stands for itself (a hyphen in first or last position included). *)
Fixpoint items_of (stuff : string) : list item :=
  match stuff with
  | EmptyString => []
  | String x (String "-" (String y rest)) => Range x y :: items_of rest
  | String x rest => Single x :: items_of rest
  end.

Definition class_of (stuff : string) : token :=
  match stuff with
  | String "!" body => Class true (items_of body)
  | _ => Class false (items_of stuff)
  end.

(** The body of a bracket expression opened just before [rest]: an
    optional [!], an optional []], then everything up to the next []].
    [None] when no closing bracket follows (the [[] is then literal). *)
Fixpoint upto_close (s : string) : option string :=
  match s with
  | EmptyString => None
  | String "]" _ => Some EmptyString
  | String c s' => option_map (String c) (upto_close s')
  end.

Definition bracket_body (rest : string) : option string :=
  match rest with
  | String "!" (String "]" r) => option_map (fun b => String "!" (String "]" b)) (upto_close r)
  | String "!" r => option_map (String "!") (upto_close r)
  | String "]" r => option_map (String "]") (upto_close r)
  | _ => upto_close rest
  end.

(** [translate]: [skip] counts the characters of a bracket expression
    still to be stepped over (the [i = j + 1] of the library). *)
Fixpoint translate_from (skip : nat) (pat : string) : list token :=
  match pat with
  | EmptyString => []
  | String c rest =>
      match skip with
      | S k => translate_from k rest
      | O =>
          match c with
          | "*"%char => Star :: translate_from 0 rest
          | "?"%char => Quest :: translate_from 0 rest
          | "["%char =>
              match bracket_body rest with
              | None => Lit c :: translate_from 0 rest
              | Some stuff =>
                  class_of stuff :: translate_from (S (String.length stuff)) rest
              end
          | _ => Lit c :: translate_from 0 rest
          end
      end
  end.

Definition translate (pat : string) : list token := translate_from 0 pat.

Definition item_matches (c : ascii) (i : item) : bool :=
  match i with
  | Single d => Ascii.eqb c d
  | Range lo hi =>
      Nat.leb (nat_of_ascii lo) (nat_of_ascii c) && Nat.leb (nat_of_ascii c) (nat_of_ascii hi)
  end.

Definition class_matches (negated : bool) (items : list item) (c : ascii) : bool :=
  xorb negated (existsb (item_matches c) items).

(** Anchored match of a whole name against the compiled pattern. *)
Fixpoint matches (toks : list token) (name : string) : bool :=
  match toks with
  | [] => Str.is_empty name
  | Star :: toks' =>
      (fix star (s : string) : bool :=
         matches toks' s ||
         match s with
         | EmptyString => false
         | String _ s' => star s'
         end) name
  | Quest :: toks' =>
      match name with
      | EmptyString => false
      | String _ s' => matches toks' s'
      end
  | Lit c :: toks' =>
      match name with
      | EmptyString => false
      | String d s' => Ascii.eqb c d && matches toks' s'
      end
  | Class neg items :: toks' =>
      match name with
      | EmptyString => false
      | String d s' => class_matches neg items d && matches toks' s'
      end
  end.

(** [fnmatch.filter names pat] (POSIX: [normcase] is the identity) *)
Definition filter (names : list string) (pat : string) : list string :=
  List.filter (matches (translate pat)) names.

End Fnmatch.

(* ------------------------------------------------------------------ *)
(** ** The directory tree under the working directory *)

Module FS.

(** A regular file carries its bytes and whether the process may open it
    for reading; a directory carries whether the process may list it and
    its entries, in the order in which [os.scandir] yields them.
    Symbolic links are not modelled. *)
#[warnings="-register-all"]
Inductive node :=
| File (readable : bool) (data : string)
| Dir (listable : bool) (entries : list (string * node)).

Definition is_dir (n : node) : bool :=
  match n with Dir _ _ => true | File _ _ => false end.

Fixpoint assoc (name : string) (es : list (string * node)) : option node :=
  match es with
  | [] => None
  | (k, n) :: es' => if String.eqb name k then Some n else assoc name es'
  end.

(** Path resolution from a node, one component at a time.  An empty
    component (doubled or trailing slash) and [.] stay in place but
    require a directory; [..] would leave the tree and resolves to
    nothing. *)
Fixpoint walk (n : node) (comps : list string) : option node :=
  match comps with
  | [] => Some n
  | c :: rest =>
      match n with
      | File _ _ => None
      | Dir _ es =>
          if Str.is_empty c || String.eqb c "." then walk n rest
          else match assoc c es with
               | Some child => walk child rest
               | None => None
               end
      end
  end.

(** Resolution of a relative path string against the working directory
    [root].  The empty path names nothing; absolute paths lie outside
    the tree. *)
Definition lookup (root : node) (path : string) : option node :=
  if Str.is_empty path || Str.startswith path "/" then None
  else walk root (Str.split_on PosixPath.sep path).

(** [os.path.lexists] *)
Definition lexists (root : node) (path : string) : bool :=
  match lookup root path with Some _ => true | None => false end.

(** [os.path.isdir] *)
Definition isdir (root : node) (path : string) : bool :=
  match lookup root path with Some n => is_dir n | None => false end.

(** [os.scandir]: [None] stands for the [OSError] it raises. *)
Definition scandir (root : node) (path : string) : option (list (string * node)) :=
  match lookup root path with
  | Some (Dir true es) => Some es
  | _ => None
  end.

Fixpoint replace_entry (name : string) (new : node) (es : list (string * node))
  : list (string * node) :=
  match es with
  | [] => [(name, new)]
  | (k, n) :: es' =>
      if String.eqb name k then (k, new) :: es' else (k, n) :: replace_entry name new es'
  end.

(** The tree with [new] put at the place the components name: an entry
    of that name is replaced, a missing last entry is created.  [None]
    when the way there does not exist. *)
Fixpoint put (n : node) (comps : list string) (new : node) : option node :=
  match comps with
  | [] => None
  | c :: rest =>
      match n with
      | File _ _ => None
      | Dir l es =>
          if Str.is_empty c || String.eqb c "." then put n rest new
          else
            match rest with
            | [] => Some (Dir l (replace_entry c new es))
            | _ :: _ =>
                match assoc c es with
                | Some child =>
                    match put child rest new with
                    | Some child' => Some (Dir l (replace_entry c child' es))
                    | None => None
                    end
                | None => None
                end
            end
      end
  end.

Definition store (root : node) (path : string) (new : node) : option node :=
  if Str.is_empty path || Str.startswith path "/" then None
  else put root (Str.split_on PosixPath.sep path) new.

(** Entry names a real directory can hold. *)
Definition name_ok (name : string) : bool :=
  negb (Str.is_empty name)
  && negb (Str.mem "/"%char name)
  && negb (Str.mem "000"%char name)
  && negb (String.eqb name ".")
  && negb (String.eqb name "..").

Fixpoint nodupb (names : list string) : bool :=
  match names with
  | [] => true
  | x :: r => negb (existsb (String.eqb x) r) && nodupb r
  end.

(** Well-formed trees: every directory has valid, pairwise distinct
    entry names. *)
Fixpoint wf (n : node) : bool :=
  match n with
  | File _ _ => true
  | Dir _ es =>
      forallb name_ok (map fst es) && nodupb (map fst es)
      && (fix all (l : list (string * node)) : bool :=
            match l with
            | [] => true
            | (_, c) :: l' => wf c && all l'
            end) es
  end.

End FS.

(* ------------------------------------------------------------------ *)
(** ** glob.glob *)

Module Glob.

(** [magic_check = re.compile('([*?[])')] *)
Definition is_magic_char (c : ascii) : bool :=
  Ascii.eqb c "*" || Ascii.eqb c "?" || Ascii.eqb c "[".

Fixpoint has_magic (s : string) : bool :=
  match s with
  | EmptyString => false
  | String c s' => is_magic_char c || has_magic s'
  end.

Definition _ishidden (path : string) : bool :=
  match path with
  | String "." _ => true
  | _ => false
  end.

(** [glob.glob] is called without [root_dir]: [root_dir = pathname[:0]]. *)
Definition root_dir : string := EmptyString.

Definition _join (dirname basename : string) : string :=
  if Str.is_empty dirname || Str.is_empty basename
  then (if Str.is_empty dirname then basename else dirname)
  else PosixPath.join dirname basename.

(** [_listdir]: the names in [dirname] (the working directory when
    [dirname] is empty), directories only when [dironly]; a directory
    that cannot be scanned contributes nothing. *)
Definition _listdir (fs : FS.node) (dirname : string) (dironly : bool) : list string :=
  match FS.scandir fs (if Str.is_empty dirname then "." else dirname) with
  | None => []
  | Some es =>
      map fst (List.filter (fun e => negb dironly || FS.is_dir (snd e)) es)
  end.

Definition _glob1 (fs : FS.node) (dirname pattern : string) (dironly : bool) : list string :=
  let names := _listdir fs dirname dironly in
  let names := if negb (_ishidden pattern)
               then List.filter (fun x => negb (_ishidden x)) names
               else names in
  Fnmatch.filter names pattern.

Definition _glob0 (fs : FS.node) (dirname basename : string) (dironly : bool) : list string :=
  if negb (Str.is_empty basename)
  then (if FS.lexists fs (_join dirname basename) then [basename] else [])
  else (if FS.isdir fs dirname then [basename] else []).

(** [_iglob], by recursion on a bound for the length of [pathname]
    (each recursive call is on a strictly shorter [dirname]); [None]
    only when the bound is too small.  The library's [assert not dironly]
    in the branch without wildcards is left out: [dironly] is set only
    in the recursive call, which is made on a [dirname] with wildcards. *)
Fixpoint _iglob (fuel : nat) (fs : FS.node) (pathname : string) (dironly : bool)
  : option (list string) :=
  match fuel with
  | O => None
  | S fuel' =>
      let (dirname, basename) := PosixPath.split pathname in
      if negb (has_magic pathname) then
        if negb (Str.is_empty basename)
        then Some (if FS.lexists fs (_join root_dir pathname) then [pathname] else [])
        else Some (if FS.isdir fs (_join root_dir dirname) then [pathname] else [])
      else if Str.is_empty dirname then
        Some (_glob1 fs root_dir basename dironly)
      else
        let dirs :=
          if negb (String.eqb dirname pathname) && has_magic dirname
          then _iglob fuel' fs dirname true
          else Some [dirname] in
        let glob_in_dir := if has_magic basename then _glob1 else _glob0 in
        match dirs with
        | None => None
        | Some ds =>
            Some (flat_map
                    (fun dirname =>
                       map (fun name => PosixPath.join dirname name)
                           (glob_in_dir fs (_join root_dir dirname) basename dironly))
                    ds)
        end
  end.

(** [glob.glob pathname]: the list of everything [iglob] yields.  (The
    leading empty result [iglob] drops concerns recursive patterns only.) *)
Definition glob (fs : FS.node) (pathname : string) : list string :=
  match _iglob (S (String.length pathname)) fs pathname false with
  | Some r => r
  | None => []
  end.

End Glob.

(** A sample project tree: the application's real layout (directories
    literally named [[locale]] and [[id]]), next to one-letter
    directories, a hidden directory and an unreadable page. *)
Definition page (text : string) : FS.node := FS.File true text.

Definition orders_dir (ids : list (string * FS.node)) : FS.node :=
  FS.Dir true [("account", FS.Dir true [("orders", FS.Dir true ids)])].

Definition sample_fs : FS.node :=
  FS.Dir true
    [("src", FS.Dir true
       [("app", FS.Dir true
          [("[locale]", orders_dir [("[id]", FS.Dir true [("page.tsx", page "real")])]);
           ("en", orders_dir [("42", FS.Dir true [("page.tsx", page "X")]);
                              ("d", FS.Dir true [("page.tsx", FS.File false "secret")]);
                              ("notes.txt", page "n")]);
           ("e", orders_dir [("i", FS.Dir true [("page.tsx", page "one-letter")]);
                             ("id", FS.Dir true [("page.tsx", page "two-letter")])]);
           (".git", orders_dir [("1", FS.Dir true [("page.tsx", page "hidden")])]);
           ("layout.tsx", page "layout")])])].

(** A tree with a single page, holding the given bytes. *)
Definition single_page_fs (data : string) : FS.node :=
  FS.Dir true
    [("src", FS.Dir true
       [("app", FS.Dir true
          [("en", orders_dir [("42", FS.Dir true [("page.tsx", page data)])])])])].

Definition page_42 : string := "src/app/en/account/orders/42/page.tsx".

(** ["a\r\nb"]: two lines with a Windows line ending. *)
Definition crlf_text : string := String "a" (String "013" (String "010" "b")).

(** ["a\nb"] *)
Definition lf_text : string := String "a" (String "010" "b").

(** One byte that is not UTF-8. *)
Definition undecodable : string := String "255" EmptyString.

(* ------------------------------------------------------------------ *)
(** ** Text files: [open(f, 'r', encoding='utf-8')] and [read()] *)

Module TextIO.

Definition byte (c : ascii) : nat := nat_of_ascii c.

Definition between (lo hi : nat) (c : ascii) : bool :=
  Nat.leb lo (byte c) && Nat.leb (byte c) hi.

Definition continuation : ascii -> bool := between 128 191.

(** Admissible second byte of a three-byte and of a four-byte sequence
    (no overlong forms, no surrogates, nothing above U+10FFFF). *)
Definition second_of_3 (b0 b1 : ascii) : bool :=
  if Nat.eqb (byte b0) 224 then between 160 191 b1
  else if Nat.eqb (byte b0) 237 then between 128 159 b1
  else continuation b1.

Definition second_of_4 (b0 b1 : ascii) : bool :=
  if Nat.eqb (byte b0) 240 then between 144 191 b1
  else if Nat.eqb (byte b0) 244 then between 128 143 b1
  else continuation b1.

(** What the strict [utf-8] codec accepts. *)
Fixpoint utf8_valid (s : string) : bool :=
  match s with
  | EmptyString => true
  | String b0 r0 =>
      if Nat.leb (byte b0) 127 then utf8_valid r0
      else
        match r0 with
        | EmptyString => false
        | String b1 r1 =>
            if between 194 223 b0 then continuation b1 && utf8_valid r1
            else
              match r1 with
              | EmptyString => false
              | String b2 r2 =>
                  if between 224 239 b0
                  then second_of_3 b0 b1 && continuation b2 && utf8_valid r2
                  else
                    match r2 with
                    | EmptyString => false
                    | String b3 r3 =>
                        between 240 244 b0 && second_of_4 b0 b1
                        && continuation b2 && continuation b3 && utf8_valid r3
                    end
              end
        end
  end.

(** The file is opened with [newline=None]: on input, ["\r\n"] and a
    lone ["\r"] are both handed to the program as ["\n"]. *)
Fixpoint universal_newlines (s : string) : string :=
  match s with
  | EmptyString => EmptyString
  | String "013" (String "010" rest) => String "010" (universal_newlines rest)
  | String "013" rest => String "010" (universal_newlines rest)
  | String c rest => String c (universal_newlines rest)
  end.

(** [file.read()] on the whole content: [None] stands for the
    [UnicodeDecodeError] of the codec. *)
Definition read_all (data : string) : option string :=
  if utf8_valid data then Some (universal_newlines data) else None.

End TextIO.

(* ------------------------------------------------------------------ *)
(** ** The interpreter: world, events, exceptions *)

Module Py.

(** The exceptions that can arise.  [Foreign] stands for anything raised
    by code the script merely calls; its flag tells whether the class
    derives from [Exception]. *)
Inductive exn :=
| FileNotFoundError (filename : string)
| PermissionError (filename : string)
| IsADirectoryError (filename : string)
| UnicodeDecodeError (input : string)
| ClosedFileError
| Foreign (class_name : string) (derives_from_Exception : bool).

Definition is_Exception (e : exn) : bool :=
  match e with
  | Foreign _ b => b
  | _ => true
  end.

(** The four [print] statements of the script. *)
Inductive out_line :=
| Found (f : string)
| Separator
| Content (content : string)
| ErrorReading (f : string) (e : exn).

(** What happens, in order: lines printed and file objects opened, read
    and closed. *)
Inductive event :=
| EvPrint (l : out_line)
| EvOpen (path : string) (handle : nat)
| EvOpenFailed (path : string) (e : exn)
| EvRead (handle : nat)
| EvClose (handle : nat).

Record world := mkWorld {
  fs : FS.node;                         (* the tree under the working directory *)
  open_files : list (nat * string);     (* file objects not yet closed, with their path *)
  next_handle : nat;                    (* identity of the next file object *)
  log : list event                      (* everything that happened so far *)
}.

Inductive outcome (A : Type) :=
| Ok (a : A)
| Raise (e : exn).
Arguments Ok {A} a.
Arguments Raise {A} e.

Definition M (A : Type) : Type := world -> outcome A * world.

Definition ret {A} (a : A) : M A := fun w => (Ok a, w).

Definition bind {A B} (m : M A) (k : A -> M B) : M B :=
  fun w =>
    match m w with
    | (Ok a, w') => k a w'
    | (Raise e, w') => (Raise e, w')
    end.

Definition emit (ev : event) (w : world) : world :=
  mkWorld (fs w) (open_files w) (next_handle w) (log w ++ [ev]).

(** [print(...)] *)
Definition print (l : out_line) : M unit :=
  fun w => (Ok tt, emit (EvPrint l) w).

(** [open(path, 'r', encoding='utf-8')] *)
Definition open_r (path : string) : M nat :=
  fun w =>
    match FS.lookup (fs w) path with
    | None => (Raise (FileNotFoundError path), emit (EvOpenFailed path (FileNotFoundError path)) w)
    | Some (FS.Dir _ _) =>
        (Raise (IsADirectoryError path), emit (EvOpenFailed path (IsADirectoryError path)) w)
    | Some (FS.File false _) =>
        (Raise (PermissionError path), emit (EvOpenFailed path (PermissionError path)) w)
    | Some (FS.File true _) =>
        let h := next_handle w in
        (Ok h, mkWorld (fs w) ((h, path) :: open_files w) (S h) (log w ++ [EvOpen path h]))
    end.

(** [open(path, 'w', encoding='utf-8')], the other way of opening a file:
    the file is created, or emptied when it exists.  The script never
    calls it; it is here because it is what changes the tree.  (Write
    permission is not modelled.) *)
Definition open_w (path : string) : M nat :=
  fun w =>
    match FS.lookup (fs w) path with
    | Some (FS.Dir _ _) =>
        (Raise (IsADirectoryError path), emit (EvOpenFailed path (IsADirectoryError path)) w)
    | _ =>
        match FS.store (fs w) path (FS.File true EmptyString) with
        | Some tree' =>
            let h := next_handle w in
            (Ok h, mkWorld tree' ((h, path) :: open_files w) (S h) (log w ++ [EvOpen path h]))
        | None =>
            (Raise (FileNotFoundError path), emit (EvOpenFailed path (FileNotFoundError path)) w)
        end
    end.

Fixpoint path_of (h : nat) (tbl : list (nat * string)) : option string :=
  match tbl with
  | [] => None
  | (k, p) :: tbl' => if Nat.eqb h k then Some p else path_of h tbl'
  end.

(** [file.read()] *)
Definition read (h : nat) : M string :=
  fun w =>
    match path_of h (open_files w) with
    | None => (Raise ClosedFileError, w)
    | Some path =>
        match FS.lookup (fs w) path with
        | Some (FS.File _ data) =>
            match TextIO.read_all data with
            | Some text => (Ok text, emit (EvRead h) w)
            | None => (Raise (UnicodeDecodeError data), emit (EvRead h) w)
            end
        | _ => (Raise (FileNotFoundError path), emit (EvRead h) w)
        end
    end.

(** [file.close()] *)
Definition close (h : nat) : M unit :=
  fun w =>
    (Ok tt,
     mkWorld (fs w) (List.filter (fun e => negb (Nat.eqb (fst e) h)) (open_files w))
             (next_handle w) (log w ++ [EvClose h])).

(** [with open(path, ...) as file: body]: the file object is closed on
    the way out of the block, however the block is left. *)
Definition with_open {A} (path : string) (body : nat -> M A) : M A :=
  fun w =>
    match open_r path w with
    | (Raise e, w1) => (Raise e, w1)
    | (Ok file, w1) =>
        let (r, w2) := body file w1 in
        let (_, w3) := close file w2 in
        (r, w3)
    end.

(** [try: body / except Exception as e: handler] *)
Definition try_except_Exception (body : M unit) (handler : exn -> M unit) : M unit :=
  fun w =>
    match body w with
    | (Ok a, w') => (Ok a, w')
    | (Raise e, w') => if is_Exception e then handler e w' else (Raise e, w')
    end.

(** [for x in xs: body] *)
Fixpoint for_each {A} (xs : list A) (body : A -> M unit) : M unit :=
  match xs with
  | [] => ret tt
  | x :: xs' => bind (body x) (fun _ => for_each xs' body)
  end.

(** The lines written to standard output, oldest first. *)
Fixpoint printed (l : list event) : list out_line :=
  match l with
  | [] => []
  | EvPrint o :: l' => o :: printed l'
  | _ :: l' => printed l'
  end.

(** The text of one printed line; [str] renders an exception the way
    [{e}] does inside an f-string. *)
Definition render (str : exn -> string) (o : out_line) : string :=
  match o with
  | Found f => "Found: " ++ f
  | Separator => Str.repeat "=" 80
  | Content content => content
  | ErrorReading f e => "Error reading " ++ f ++ ": " ++ str e
  end.

Definition newline : string := String "010" EmptyString.

(** Standard output as text: every [print] ends its line. *)
Fixpoint stdout_text (str : exn -> string) (os : list out_line) : string :=
  match os with
  | [] => EmptyString
  | o :: os' => render str o ++ newline ++ stdout_text str os'
  end.

(** How the process ends once the top-level code has run. *)
Definition exit_code {A} (r : outcome A) : nat :=
  match r with
  | Ok _ => 0
  | Raise _ => 1
  end.

Definition initial (tree : FS.node) : world := mkWorld tree [] 0 [].

End Py.

Declare Scope py_scope.
Delimit Scope py_scope with py.
Notation "x <- m ;; k" := (Py.bind m (fun x => k))
  (at level 61, m at next level, right associativity) : py_scope.
Notation "m ;; k" := (Py.bind m (fun _ => k))
  (at level 61, right associativity) : py_scope.

(* ------------------------------------------------------------------ *)
(** ** The script *)

Module ReadOrders.
Import Py.
Local Open Scope py_scope.

Definition patterns : list string :=
  [ "src/app/[locale]/account/orders/[id]/page.tsx";
    "src/app/*/account/orders/*/page.tsx" ].

(** ['orders' in f and f.endswith('.tsx')] *)
Definition accepted (f : string) : bool :=
  Str.contains "orders" f && Str.endswith f ".tsx".

Section Script.
(** The script is written against the two library calls through which it
    talks to the outside: [glob.glob(pattern)] and [print(...)], whatever
    they do. *)
Variable glob : string -> M (list string).
Variable print : out_line -> M unit.

(** The body of the [try] block. *)
Definition read_and_print (f : string) : M unit :=
  with_open f (fun file =>
    content <- read file ;;
    print Separator ;;
    print (Content content)).

(** The body of the inner loop. *)
Definition visit (f : string) : M unit :=
  if accepted f then
    print (Found f) ;;
    try_except_Exception (read_and_print f) (fun e => print (ErrorReading f e))
  else ret tt.

Definition script : M unit :=
  for_each patterns (fun pattern =>
    files <- glob pattern ;;
    for_each files visit).
End Script.


(** A standard output that cannot take the content of a file (a console
    encoding without the characters, a closed pipe) and raises [e] when
    asked to; other lines go through. *)
Definition print_failing_on_content (e : exn) (l : out_line) : M unit :=
  match l with
  | Content _ => fun w => (Raise e, w)
  | _ => Py.print l
  end.

(** A standard output that refuses some lines: [print(l)] raises [e]
    without writing anything when [refuses l = Some e], and writes the
    line otherwise. *)
Definition print_unless (refuses : out_line -> option exn) (l : out_line) : M unit :=
  fun w =>
    match refuses l with
    | Some e => (Raise e, w)
    | None => Py.print l w
    end.

(** [glob.glob] as the library implements it: it only looks at the tree. *)
Definition glob_glob (pattern : string) : M (list string) :=
  fun w => (Ok (Glob.glob (fs w) pattern), w).

(** The program: the library's [glob.glob], and a standard output that
    takes every line. *)
Definition main : M unit := script glob_glob Py.print.

(** One run of the script in the directory [tree]. *)
Definition run (tree : FS.node) : outcome unit * world := main (initial tree).

Definition output (tree : FS.node) : list out_line := printed (log (snd (run tree))).

End ReadOrders.

(* ------------------------------------------------------------------ *)
(** ** Observations on a run *)

Module Trace.
Import Py.

(** The paths announced by the [Found] lines, in the order printed. *)
Definition found_paths (os : list out_line) : list string :=
  flat_map (fun o => match o with Found f => [f] | _ => [] end) os.

(** The discipline a scoped file object follows: opened, read once to the
    end, closed; the separator and the content are printed while the file
    is still open, [Found] and [Error reading] lines only while no file
    is. *)
Inductive phase :=
| Idle
| Opened (h : nat)
| Consumed (h : nat).

Definition step (p : phase) (ev : event) : option phase :=
  match p, ev with
  | Idle, EvPrint (Found _) => Some Idle
  | Idle, EvPrint (ErrorReading _ _) => Some Idle
  | Idle, EvOpenFailed _ _ => Some Idle
  | Idle, EvOpen _ h => Some (Opened h)
  | Opened h, EvRead h' => if Nat.eqb h h' then Some (Consumed h) else None
  | Consumed h, EvPrint Separator => Some (Consumed h)
  | Consumed h, EvPrint (Content _) => Some (Consumed h)
  | Consumed h, EvClose h' => if Nat.eqb h h' then Some Idle else None
  | _, _ => None
  end.

Fixpoint scoped (p : phase) (l : list event) : option phase :=
  match l with
  | [] => Some p
  | ev :: l' =>
      match step p ev with
      | Some p' => scoped p' l'
      | None => None
      end
  end.

(** The events of one turn of the inner loop on candidate [f], when the
    next file object is number [h]: what [visit] is shown to do. *)
Definition visit_events (tree : FS.node) (h : nat) (f : string) : list event :=
  if ReadOrders.accepted f then
    EvPrint (Found f) ::
    match FS.lookup tree f with
    | Some (FS.File true data) =>
        EvOpen f h :: EvRead h ::
        match TextIO.read_all data with
        | Some text => [EvPrint Separator; EvPrint (Content text); EvClose h]
        | None => [EvClose h; EvPrint (ErrorReading f (UnicodeDecodeError data))]
        end
    | Some (FS.File false _) =>
        [EvOpenFailed f (PermissionError f); EvPrint (ErrorReading f (PermissionError f))]
    | Some (FS.Dir _ _) =>
        [EvOpenFailed f (IsADirectoryError f); EvPrint (ErrorReading f (IsADirectoryError f))]
    | None =>
        [EvOpenFailed f (FileNotFoundError f); EvPrint (ErrorReading f (FileNotFoundError f))]
    end
  else [].

Definition visit_next (tree : FS.node) (h : nat) (f : string) : nat :=
  if ReadOrders.accepted f then
    match FS.lookup tree f with
    | Some (FS.File true _) => S h
    | _ => h
    end
  else h.

(** The same for a whole list of candidates, visited in order. *)
Fixpoint loop_events (tree : FS.node) (h : nat) (files : list string) : list event :=
  match files with
  | [] => []
  | f :: rest => visit_events tree h f ++ loop_events tree (visit_next tree h f) rest
  end.

Fixpoint loop_next (tree : FS.node) (h : nat) (files : list string) : nat :=
  match files with
  | [] => h
  | f :: rest => loop_next tree (visit_next tree h f) rest
  end.

(** The lines one candidate contributes, seen in isolation. *)
Definition lines_for (tree : FS.node) (f : string) : list out_line :=
  printed (log (snd ((ReadOrders.visit Py.print) f (initial tree)))).

(** The lines the matches of one pattern contribute, seen in isolation. *)
Definition lines_of_pattern (tree : FS.node) (pattern : string) : list out_line :=
  printed (log (snd (for_each (Glob.glob tree pattern) (ReadOrders.visit Py.print) (initial tree)))).

End Trace.

(* ------------------------------------------------------------------ *)
(** ** The layout the patterns look for, and the shape of a report *)

Module Layout.

(** The orders directory of a locale, and the page of an order in it. *)
Definition orders_path (locale : string) : string :=
  "src/app/" ++ locale ++ "/account/orders".

Definition page_path (locale ident : string) : string :=
  "src/app/" ++ locale ++ "/account/orders/" ++ ident ++ "/page.tsx".

End Layout.

Module Report.
Import Py.

(** A report is a sequence of blocks, one per accepted candidate: the
    [Found] line, then either the separator and the content, or the
    [Error reading] line for the same path. *)
Fixpoint well_formed (os : list out_line) : bool :=
  match os with
  | [] => true
  | Found _ :: Separator :: Content _ :: rest => well_formed rest
  | Found f :: ErrorReading f' _ :: rest => String.eqb f f' && well_formed rest
  | _ => false
  end.

(** The same when standard output may refuse lines: a block can then
    also be the [Found] line, the separator and an [Error reading] line;
    with [cut_short], the last block may stop after the [Found] line or
    after the separator. *)
Fixpoint blocks (cut_short : bool) (os : list out_line) : bool :=
  match os with
  | [] => true
  | Found f :: after_found =>
      match after_found with
      | [] => cut_short
      | Separator :: after_separator =>
          match after_separator with
          | [] => cut_short
          | Content _ :: rest => blocks cut_short rest
          | ErrorReading f' _ :: rest => String.eqb f f' && blocks cut_short rest
          | _ => false
          end
      | ErrorReading f' _ :: rest => String.eqb f f' && blocks cut_short rest
      | _ => false
      end
  | _ => false
  end.

(** The paths the run tried to open, in order. *)
Fixpoint attempted (l : list event) : list string :=
  match l with
  | [] => []
  | EvOpen path _ :: l' => path :: attempted l'
  | EvOpenFailed path _ :: l' => path :: attempted l'
  | _ :: l' => attempted l'
  end.

End Report.

(* ================================================================== *)
(** * Checks of the model on concrete inputs *)

Example fnmatch_locale_class :
  Fnmatch.translate "[locale]"
  = [Fnmatch.Class false
       [Fnmatch.Single "l"; Fnmatch.Single "o"; Fnmatch.Single "c";
        Fnmatch.Single "a"; Fnmatch.Single "l"; Fnmatch.Single "e"]].
Proof. reflexivity. Qed.

Example fnmatch_filter_demo :
  Fnmatch.filter ["en"; "e"; "[locale]"; "a"; "x"; EmptyString] "[locale]" = ["e"; "a"].
Proof. reflexivity. Qed.

Example posix_split_demo :
  PosixPath.split "src/app/*/account/orders/*/page.tsx"
  = ("src/app/*/account/orders/*", "page.tsx")
  /\ PosixPath.split "a//b" = ("a", "b")
  /\ PosixPath.split "/x" = ("/", "x")
  /\ PosixPath.split "//" = ("//", EmptyString)
  /\ PosixPath.split "x" = (EmptyString, "x")
  /\ PosixPath.split "a/b/" = ("a/b", EmptyString).
Proof. repeat split. Qed.

Example glob_sample_1 :
  Glob.glob sample_fs "src/app/[locale]/account/orders/[id]/page.tsx"
  = ["src/app/e/account/orders/i/page.tsx"].
Proof. vm_compute. reflexivity. Qed.

Example glob_sample_2 :
  Glob.glob sample_fs "src/app/*/account/orders/*/page.tsx"
  = ["src/app/[locale]/account/orders/[id]/page.tsx";
     "src/app/en/account/orders/42/page.tsx";
     "src/app/en/account/orders/d/page.tsx";
     "src/app/e/account/orders/i/page.tsx";
     "src/app/e/account/orders/id/page.tsx"].
Proof. vm_compute. reflexivity. Qed.

Example sample_fs_wf : FS.wf sample_fs = true.
Proof. reflexivity. Qed.

Example utf8_demo :
  TextIO.utf8_valid "plain" = true
  /\ TextIO.utf8_valid (String "195" (String "169" EmptyString)) = true
  /\ TextIO.utf8_valid (String "255" EmptyString) = false
  /\ TextIO.utf8_valid (String "192" (String "128" EmptyString)) = false
  /\ TextIO.utf8_valid (String "237" (String "160" (String "128" EmptyString))) = false
  /\ TextIO.utf8_valid (String "226" (String "130" EmptyString)) = false.
Proof. repeat split. Qed.

Example run_sample_output :
  ReadOrders.output sample_fs
  = [ Py.Found "src/app/e/account/orders/i/page.tsx"; Py.Separator; Py.Content "one-letter";
      Py.Found "src/app/[locale]/account/orders/[id]/page.tsx"; Py.Separator; Py.Content "real";
      Py.Found "src/app/en/account/orders/42/page.tsx"; Py.Separator; Py.Content "X";
      Py.Found "src/app/en/account/orders/d/page.tsx";
      Py.ErrorReading "src/app/en/account/orders/d/page.tsx"
        (Py.PermissionError "src/app/en/account/orders/d/page.tsx");
      Py.Found "src/app/e/account/orders/i/page.tsx"; Py.Separator; Py.Content "one-letter";
      Py.Found "src/app/e/account/orders/id/page.tsx"; Py.Separator; Py.Content "two-letter" ].
Proof. vm_compute. reflexivity. Qed.

Example undecodable_page_is_closed_before_the_report :
  Py.log (snd (ReadOrders.run (single_page_fs undecodable)))
  = [ Py.EvPrint (Py.Found page_42);
      Py.EvOpen page_42 0; Py.EvRead 0; Py.EvClose 0;
      Py.EvPrint (Py.ErrorReading page_42 (Py.UnicodeDecodeError undecodable)) ].
Proof. vm_compute. reflexivity. Qed.

Example directory_named_like_a_page :
  ReadOrders.output
    (FS.Dir true
       [("src", FS.Dir true
          [("app", FS.Dir true
             [("en", orders_dir [("42", FS.Dir true [("page.tsx", FS.Dir true [])])])])])])
  = [ Py.Found page_42; Py.ErrorReading page_42 (Py.IsADirectoryError page_42) ].
Proof. vm_compute. reflexivity. Qed.

(* ================================================================== *)
(** * General facts *)

(** ** Strings *)

Lemma append_empty_r (s : string) : (s ++ EmptyString)%string = s.
Proof. induction s; simpl; congruence. Qed.

Lemma append_assoc (a b c : string) : ((a ++ b) ++ c = a ++ (b ++ c))%string.
Proof. induction a; simpl; congruence. Qed.

Lemma startswith_append (s p t : string) :
  Str.startswith s p = true -> Str.startswith (s ++ t)%string p = true.
Proof.
  revert p; induction s as [|c s IH]; intros [|d p]; simpl; intros H;
    try reflexivity; try discriminate.
  apply andb_true_iff in H as [H1 H2].
  rewrite H1; simpl; auto.
Qed.

Lemma contains_append_l (sub a b : string) :
  Str.contains sub a = true -> Str.contains sub (a ++ b)%string = true.
Proof.
  induction a as [|c a IH]; simpl.
  - rewrite orb_false_r. destruct sub; simpl; [|discriminate].
    intros _. destruct b; reflexivity.
  - intros H; apply orb_true_iff in H as [H|H].
    + change (String c (a ++ b)%string) with (String c a ++ b)%string.
      rewrite (startswith_append _ _ _ H). reflexivity.
    + rewrite (IH H). apply orb_true_r.
Qed.

Lemma contains_append_r (sub a b : string) :
  Str.contains sub b = true -> Str.contains sub (a ++ b)%string = true.
Proof.
  intros H; induction a as [|c a IH]; simpl; auto.
  rewrite IH. apply orb_true_r.
Qed.

Lemma endswith_append (a b p : string) :
  Str.endswith b p = true -> Str.endswith (a ++ b)%string p = true.
Proof.
  intros H; induction a as [|c a IH]; simpl; auto.
  rewrite IH. apply orb_true_r.
Qed.

Lemma mem_startswith (c : ascii) (s : string) :
  Str.mem c s = false -> Str.startswith s (String c EmptyString) = false.
Proof.
  destruct s as [|d s]; simpl; auto.
  intros H; apply orb_false_iff in H as [H _].
  rewrite H. reflexivity.
Qed.

(** ** [os.path.join] keeps what it is given *)

Lemma join_relative (a b : string) :
  Str.startswith b "/" = false ->
  PosixPath.join a b = (a ++ b)%string \/ PosixPath.join a b = (a ++ "/" ++ b)%string.
Proof.
  intros H; unfold PosixPath.join; rewrite H.
  destruct (Str.is_empty a || Str.endswith a "/"); auto.
Qed.

Lemma join_contains (sub a b : string) :
  Str.startswith b "/" = false ->
  Str.contains sub a = true -> Str.contains sub (PosixPath.join a b) = true.
Proof.
  intros Hb Ha; destruct (join_relative a b Hb) as [-> | ->];
    apply contains_append_l; exact Ha.
Qed.

Lemma join_contains_r (sub a b : string) :
  Str.startswith b "/" = false ->
  Str.contains sub b = true -> Str.contains sub (PosixPath.join a b) = true.
Proof.
  intros Hb Hc; destruct (join_relative a b Hb) as [-> | ->].
  - apply contains_append_r; exact Hc.
  - apply contains_append_r, contains_append_r; exact Hc.
Qed.

Lemma join_endswith (a b p : string) :
  Str.startswith b "/" = false ->
  Str.endswith b p = true -> Str.endswith (PosixPath.join a b) p = true.
Proof.
  intros Hb He; destruct (join_relative a b Hb) as [-> | ->].
  - apply endswith_append; exact He.
  - apply endswith_append, endswith_append; exact He.
Qed.

(** ** The interpreter *)

Lemma printed_app (l1 l2 : list Py.event) :
  Py.printed (l1 ++ l2) = Py.printed l1 ++ Py.printed l2.
Proof.
  induction l1 as [|ev l1 IH]; simpl; auto.
  destruct ev; simpl; rewrite IH; reflexivity.
Qed.

Lemma scoped_app (p : Trace.phase) (l1 l2 : list Py.event) :
  Trace.scoped p (l1 ++ l2)
  = match Trace.scoped p l1 with
    | Some q => Trace.scoped q l2
    | None => None
    end.
Proof.
  revert p; induction l1 as [|ev l1 IH]; intros p; simpl; auto.
  destruct (Trace.step p ev); auto.
Qed.

(** One turn of the inner loop, started with no file open: it always
    completes, leaves the tree alone and no file open, and adds exactly
    [visit_events] to the log. *)
Lemma visit_spec (f : string) (w : Py.world) :
  Py.open_files w = [] ->
  (ReadOrders.visit Py.print) f w
  = (Py.Ok tt,
     Py.mkWorld (Py.fs w) []
       (Trace.visit_next (Py.fs w) (Py.next_handle w) f)
       (Py.log w ++ Trace.visit_events (Py.fs w) (Py.next_handle w) f)).
Proof.
  destruct w as [tree tbl n lg]; simpl; intros ->.
  unfold ReadOrders.visit, Trace.visit_next, Trace.visit_events.
  destruct (ReadOrders.accepted f).
  2:{ unfold Py.ret. rewrite app_nil_r. reflexivity. }
  unfold Py.bind, Py.print, Py.try_except_Exception, ReadOrders.read_and_print,
    Py.with_open, Py.open_r, Py.emit; simpl.
  destruct (FS.lookup tree f) as [[[|] data|l es]|] eqn:E; simpl;
    rewrite <- ?app_assoc; simpl; try reflexivity.
  unfold Py.bind, Py.read, Py.print, Py.emit; simpl.
  rewrite Nat.eqb_refl, E.
  destruct (TextIO.read_all data); simpl; rewrite Nat.eqb_refl; simpl;
    rewrite <- ?app_assoc; simpl; reflexivity.
Qed.

Lemma for_each_visit_spec (files : list string) (w : Py.world) :
  Py.open_files w = [] ->
  Py.for_each files (ReadOrders.visit Py.print) w
  = (Py.Ok tt,
     Py.mkWorld (Py.fs w) []
       (Trace.loop_next (Py.fs w) (Py.next_handle w) files)
       (Py.log w ++ Trace.loop_events (Py.fs w) (Py.next_handle w) files)).
Proof.
  revert w; induction files as [|f rest IH]; intros w Hw; simpl.
  - unfold Py.ret. rewrite app_nil_r. destruct w; simpl in *; subst; reflexivity.
  - unfold Py.bind. rewrite (visit_spec f w Hw).
    rewrite IH by reflexivity. simpl. rewrite <- app_assoc. reflexivity.
Qed.

Lemma printed_visit_events (tree : FS.node) (h h' : nat) (f : string) :
  Py.printed (Trace.visit_events tree h f) = Py.printed (Trace.visit_events tree h' f).
Proof.
  unfold Trace.visit_events.
  destruct (ReadOrders.accepted f); auto.
  destruct (FS.lookup tree f) as [[[|] data|l es]|]; simpl; auto.
  destruct (TextIO.read_all data); reflexivity.
Qed.

Lemma lines_for_events (tree : FS.node) (h : nat) (f : string) :
  Trace.lines_for tree f = Py.printed (Trace.visit_events tree h f).
Proof.
  unfold Trace.lines_for. rewrite visit_spec by reflexivity. simpl.
  apply printed_visit_events.
Qed.

Lemma printed_loop_events (tree : FS.node) (h : nat) (files : list string) :
  Py.printed (Trace.loop_events tree h files) = flat_map (Trace.lines_for tree) files.
Proof.
  revert h; induction files as [|f rest IH]; intros h; simpl; auto.
  rewrite printed_app, IH, <- (lines_for_events tree h f). reflexivity.
Qed.

Lemma found_paths_app (l1 l2 : list Py.out_line) :
  Trace.found_paths (l1 ++ l2) = Trace.found_paths l1 ++ Trace.found_paths l2.
Proof. unfold Trace.found_paths. apply flat_map_app. Qed.

Lemma found_paths_lines_for (tree : FS.node) (f : string) :
  Trace.found_paths (Trace.lines_for tree f) = if ReadOrders.accepted f then [f] else [].
Proof.
  rewrite (lines_for_events tree 0 f). unfold Trace.visit_events.
  destruct (ReadOrders.accepted f); auto.
  destruct (FS.lookup tree f) as [[[|] data|l es]|]; simpl; auto.
  destruct (TextIO.read_all data); reflexivity.
Qed.

Lemma found_paths_loop (tree : FS.node) (files : list string) :
  Trace.found_paths (flat_map (Trace.lines_for tree) files)
  = List.filter ReadOrders.accepted files.
Proof.
  induction files as [|f rest IH]; simpl; auto.
  rewrite found_paths_app, IH, found_paths_lines_for.
  destruct (ReadOrders.accepted f); reflexivity.
Qed.

(** The whole run, spelled out: both patterns are expanded against the
    unchanged tree, the first one first. *)
Lemma run_spec (tree : FS.node) :
  let files1 := Glob.glob tree "src/app/[locale]/account/orders/[id]/page.tsx" in
  let files2 := Glob.glob tree "src/app/*/account/orders/*/page.tsx" in
  ReadOrders.run tree
  = (Py.Ok tt,
     Py.mkWorld tree []
       (Trace.loop_next tree (Trace.loop_next tree 0 files1) files2)
       (Trace.loop_events tree 0 files1
        ++ Trace.loop_events tree (Trace.loop_next tree 0 files1) files2)).
Proof.
  intros files1 files2.
  unfold ReadOrders.run, ReadOrders.main, ReadOrders.script, ReadOrders.patterns.
  simpl Py.for_each. unfold Py.bind at 1 2. unfold ReadOrders.glob_glob at 1.
  rewrite for_each_visit_spec by reflexivity.
  unfold Py.bind at 1 2. unfold ReadOrders.glob_glob at 1. simpl Py.fs.
  rewrite for_each_visit_spec by reflexivity.
  unfold Py.ret. simpl. reflexivity.
Qed.

Lemma output_spec (tree : FS.node) :
  ReadOrders.output tree
  = flat_map (Trace.lines_for tree) (Glob.glob tree "src/app/[locale]/account/orders/[id]/page.tsx")
    ++ flat_map (Trace.lines_for tree) (Glob.glob tree "src/app/*/account/orders/*/page.tsx").
Proof.
  unfold ReadOrders.output. rewrite run_spec. simpl.
  rewrite printed_app, !printed_loop_events. reflexivity.
Qed.

(** Opening [f] and reading it to the end, as the [try] block does before
    it prints anything: the two possible results and what [visit] prints
    in each. *)
Lemma open_and_read_cases (tree : FS.node) (f : string) :
  fst (Py.with_open f Py.read (Py.initial tree))
  = match FS.lookup tree f with
    | Some (FS.File true data) =>
        match TextIO.read_all data with
        | Some text => Py.Ok text
        | None => Py.Raise (Py.UnicodeDecodeError data)
        end
    | Some (FS.File false _) => Py.Raise (Py.PermissionError f)
    | Some (FS.Dir _ _) => Py.Raise (Py.IsADirectoryError f)
    | None => Py.Raise (Py.FileNotFoundError f)
    end.
Proof.
  unfold Py.with_open, Py.open_r, Py.initial; simpl.
  destruct (FS.lookup tree f) as [[[|] data|l es]|] eqn:E; simpl; auto.
  unfold Py.read; simpl. rewrite E.
  destruct (TextIO.read_all data); reflexivity.
Qed.

Lemma lines_for_failure (tree : FS.node) (f : string) (e : Py.exn) :
  ReadOrders.accepted f = true ->
  fst (Py.with_open f Py.read (Py.initial tree)) = Py.Raise e ->
  Trace.lines_for tree f = [Py.Found f; Py.ErrorReading f e].
Proof.
  intros Ha. rewrite open_and_read_cases, (lines_for_events tree 0 f).
  unfold Trace.visit_events. rewrite Ha.
  destruct (FS.lookup tree f) as [[[|] data|l es]|]; simpl;
    try (intros [= <-]; reflexivity).
  destruct (TextIO.read_all data); [discriminate|].
  intros [= <-]; reflexivity.
Qed.

Lemma lines_for_success (tree : FS.node) (f text : string) :
  ReadOrders.accepted f = true ->
  fst (Py.with_open f Py.read (Py.initial tree)) = Py.Ok text ->
  Trace.lines_for tree f = [Py.Found f; Py.Separator; Py.Content text].
Proof.
  intros Ha. rewrite open_and_read_cases, (lines_for_events tree 0 f).
  unfold Trace.visit_events. rewrite Ha.
  destruct (FS.lookup tree f) as [[[|] data|l es]|]; simpl; try discriminate.
  destruct (TextIO.read_all data); [|discriminate].
  intros [= <-]; reflexivity.
Qed.

Lemma lines_for_rejected (tree : FS.node) (f : string) :
  ReadOrders.accepted f = false -> Trace.lines_for tree f = [].
Proof.
  intros Ha. rewrite (lines_for_events tree 0 f).
  unfold Trace.visit_events. rewrite Ha. reflexivity.
Qed.


Lemma scoped_visit_events (tree : FS.node) (h : nat) (f : string) :
  Trace.scoped Trace.Idle (Trace.visit_events tree h f) = Some Trace.Idle.
Proof.
  unfold Trace.visit_events.
  destruct (ReadOrders.accepted f); auto.
  destruct (FS.lookup tree f) as [[[|] data|l es]|]; simpl; auto.
  rewrite Nat.eqb_refl.
  destruct (TextIO.read_all data); simpl; rewrite Nat.eqb_refl; reflexivity.
Qed.

Lemma scoped_loop_events (tree : FS.node) (h : nat) (files : list string) :
  Trace.scoped Trace.Idle (Trace.loop_events tree h files) = Some Trace.Idle.
Proof.
  revert h; induction files as [|f rest IH]; intros h; simpl; auto.
  rewrite scoped_app, scoped_visit_events. apply IH.
Qed.

Lemma universal_newlines_without_cr (data : string) :
  Str.mem "013" data = false -> TextIO.universal_newlines data = data.
Proof.
  induction data as [|c data IH]; simpl; auto.
  intros H; apply orb_false_iff in H as [Hc Hd].
  rewrite (IH Hd).
  destruct (Ascii.eqb_spec "013" c) as [<-|Hne]; [discriminate|].
  destruct c as [[] [] [] [] [] [] [] []]; try reflexivity.
  congruence.
Qed.


(** ** The bound used by [_iglob] is enough *)

Lemma rpartition_incl_app (c : ascii) (s : string) :
  (fst (Str.rpartition_incl c s) ++ snd (Str.rpartition_incl c s))%string = s.
Proof.
  induction s as [|d s IH]; simpl; auto.
  destruct (Str.rpartition_incl c s) as [h t]; simpl in *.
  destruct h as [|x h]; simpl in *.
  - destruct (Ascii.eqb d c); simpl; congruence.
  - congruence.
Qed.

Lemma rstrip_prefix (c : ascii) (s : string) :
  exists k, s = (Str.rstrip c s ++ k)%string.
Proof.
  induction s as [|d s [k IH]]; simpl.
  - exists EmptyString; reflexivity.
  - destruct (Str.is_empty (Str.rstrip c s) && Ascii.eqb d c).
    + exists (String d s); reflexivity.
    + exists k; simpl; congruence.
Qed.

Lemma length_append (a b : string) :
  String.length (a ++ b) = String.length a + String.length b.
Proof. induction a; simpl; auto. Qed.

Lemma proper_prefix_shorter (a b p : string) :
  p = (a ++ b)%string -> a <> p -> String.length a < String.length p.
Proof.
  intros -> Hne. rewrite length_append.
  destruct b as [|x b]; simpl; [|lia].
  rewrite append_empty_r in Hne. congruence.
Qed.

Lemma split_head_shorter (p : string) :
  fst (PosixPath.split p) <> p ->
  String.length (fst (PosixPath.split p)) < String.length p.
Proof.
  unfold PosixPath.split.
  pose proof (rpartition_incl_app PosixPath.sep p) as Hp.
  destruct (Str.rpartition_incl PosixPath.sep p) as [head tail]; simpl in *.
  destruct (rstrip_prefix PosixPath.sep head) as [k Hk].
  destruct (Str.is_empty (Str.rstrip PosixPath.sep head)).
  - apply proper_prefix_shorter with (b := tail). congruence.
  - apply proper_prefix_shorter with (b := (k ++ tail)%string).
    rewrite <- append_assoc, <- Hk. congruence.
Qed.

(** [_iglob] returns as soon as its bound exceeds the length of the
    pattern; [Glob.glob] calls it with such a bound. *)
Lemma iglob_returns (tree : FS.node) (fuel : nat) (pathname : string) (dironly : bool) :
  String.length pathname < fuel ->
  Glob._iglob fuel tree pathname dironly <> None.
Proof.
  revert pathname dironly; induction fuel as [|fuel IH]; intros pathname dironly Hl; [lia|].
  simpl.
  pose proof (split_head_shorter pathname) as Hs.
  destruct (PosixPath.split pathname) as [dirname basename]; simpl in Hs.
  destruct (negb (Glob.has_magic pathname)).
  { destruct (negb (Str.is_empty basename)); discriminate. }
  destruct (Str.is_empty dirname); [discriminate|].
  destruct (String.eqb_spec dirname pathname) as [He|Hne]; simpl.
  { discriminate. }
  destruct (Glob.has_magic dirname); [|discriminate].
  specialize (IH dirname true).
  destruct (Glob._iglob fuel tree dirname true); [discriminate|].
  exfalso; apply IH; [|reflexivity]. specialize (Hs Hne). lia.
Qed.

Lemma glob_returns (tree : FS.node) (pathname : string) :
  Glob._iglob (S (String.length pathname)) tree pathname false
  = Some (Glob.glob tree pathname).
Proof.
  unfold Glob.glob.
  pose proof (iglob_returns tree (S (String.length pathname)) pathname false) as H.
  destruct (Glob._iglob (S (String.length pathname)) tree pathname false); [reflexivity|].
  exfalso; apply H; [lia|reflexivity].
Qed.

(** ** The tree *)

Lemma assoc_In (c : string) (es : list (string * FS.node)) (child : FS.node) :
  FS.assoc c es = Some child -> In (c, child) es.
Proof.
  induction es as [|[k n] es IH]; simpl; [discriminate|].
  destruct (String.eqb_spec c k) as [->|_].
  - intros [= ->]; left; reflexivity.
  - intros H; right; apply IH; exact H.
Qed.

Lemma wf_entry (l : bool) (es : list (string * FS.node)) (c : string) (child : FS.node) :
  FS.wf (FS.Dir l es) = true -> In (c, child) es -> FS.wf child = true.
Proof.
  simpl. intros H; apply andb_true_iff in H as [_ H]; revert H.
  induction es as [|[k n] es IH]; simpl; [intros _ []|].
  intros H; apply andb_true_iff in H as [H1 H2].
  intros [[= <- <-]|Hin]; [exact H1|apply IH; assumption].
Qed.

Lemma wf_walk (comps : list string) (n m : FS.node) :
  FS.wf n = true -> FS.walk n comps = Some m -> FS.wf m = true.
Proof.
  revert n; induction comps as [|c rest IH]; intros n Hn; simpl.
  - intros [= <-]; exact Hn.
  - destruct n as [r d|l es]; [discriminate|].
    destruct (Str.is_empty c || String.eqb c "."); [apply IH; exact Hn|].
    destruct (FS.assoc c es) as [child|] eqn:E; [|discriminate].
    apply IH. eapply wf_entry; [exact Hn|]. apply assoc_In; exact E.
Qed.

Lemma wf_scandir (tree : FS.node) (path : string) (es : list (string * FS.node)) :
  FS.wf tree = true -> FS.scandir tree path = Some es ->
  forallb FS.name_ok (map fst es) = true.
Proof.
  intros Hw. unfold FS.scandir, FS.lookup.
  destruct (Str.is_empty path || Str.startswith path "/"); [discriminate|].
  destruct (FS.walk tree (Str.split_on PosixPath.sep path)) as [[r d|[|] es']|] eqn:E;
    try discriminate.
  intros [= <-]. pose proof (wf_walk _ _ _ Hw E) as H. simpl in H.
  apply andb_true_iff in H as [H _]. apply andb_true_iff in H as [H _]. exact H.
Qed.

Lemma walk_app (a b : list string) (n : FS.node) :
  FS.walk n (a ++ b)
  = match FS.walk n a with
    | Some m => FS.walk m b
    | None => None
    end.
Proof.
  revert n; induction a as [|c a IH]; intros n; simpl; auto.
  destruct n as [r d|l es]; auto.
  destruct (Str.is_empty c || String.eqb c "."); auto.
  destruct (FS.assoc c es); auto.
Qed.

(** ** glob *)

Lemma listdir_names_ok (tree : FS.node) (d n : string) (dironly : bool) :
  FS.wf tree = true -> In n (Glob._listdir tree d dironly) -> FS.name_ok n = true.
Proof.
  intros Hw. unfold Glob._listdir.
  destruct (FS.scandir tree (if Str.is_empty d then "." else d)) as [es|] eqn:E;
    [|intros []].
  pose proof (wf_scandir _ _ _ Hw E) as Hn.
  rewrite forallb_forall in Hn.
  intros Hin. apply Hn. apply in_map_iff in Hin as [[k c] [<- Hin]].
  apply filter_In in Hin as [Hin _].
  apply in_map_iff. exists (k, c). auto.
Qed.

Lemma glob1_listed (tree : FS.node) (d pat n : string) (dironly : bool) :
  In n (Glob._glob1 tree d pat dironly) ->
  In n (Glob._listdir tree d dironly)
  /\ Fnmatch.matches (Fnmatch.translate pat) n = true.
Proof.
  unfold Glob._glob1, Fnmatch.filter. intros H.
  apply filter_In in H as [H Hm]. split; [|exact Hm].
  destruct (negb (Glob._ishidden pat)); [|exact H].
  apply filter_In in H as [H _]. exact H.
Qed.

Lemma name_ok_relative (n : string) :
  FS.name_ok n = true -> Str.startswith n "/" = false.
Proof.
  unfold FS.name_ok. intros H.
  repeat (apply andb_true_iff in H as [H ?]).
  apply mem_startswith. apply negb_true_iff. assumption.
Qed.

(** The two kinds of step of the expansion: a fixed component, and a
    component with wildcards looked up in the directory listing. *)
Lemma in_fixed_step (tree : FS.node) (b f : string) (dironly : bool) (ds : list string) :
  In f (flat_map (fun d => map (PosixPath.join d) (Glob._glob0 tree d b dironly)) ds) ->
  exists d, In d ds /\ In b (Glob._glob0 tree d b dironly) /\ f = PosixPath.join d b.
Proof.
  intros H. apply in_flat_map in H as [d [Hd H]].
  apply in_map_iff in H as [n [<- Hn]].
  exists d. split; [exact Hd|].
  assert (n = b) as ->.
  { unfold Glob._glob0 in Hn.
    destruct (negb (Str.is_empty b)).
    - destruct (FS.lexists tree (Glob._join d b));
        [destruct Hn as [<-|[]]; reflexivity|destruct Hn].
    - destruct (FS.isdir tree d);
        [destruct Hn as [<-|[]]; reflexivity|destruct Hn]. }
  split; [exact Hn|reflexivity].
Qed.

Lemma in_listing_step (tree : FS.node) (pat f : string) (dironly : bool) (ds : list string) :
  In f (flat_map (fun d => map (PosixPath.join d) (Glob._glob1 tree d pat dironly)) ds) ->
  exists d n, In d ds /\ In n (Glob._glob1 tree d pat dironly) /\ f = PosixPath.join d n.
Proof.
  intros H. apply in_flat_map in H as [d [Hd H]].
  apply in_map_iff in H as [n [<- Hn]].
  exists d, n. auto.
Qed.

Lemma glob_first_pattern (tree : FS.node) :
  Glob.glob tree "src/app/[locale]/account/orders/[id]/page.tsx"
  = flat_map (fun d => map (PosixPath.join d) (Glob._glob0 tree d "page.tsx" false))
      (flat_map (fun d => map (PosixPath.join d) (Glob._glob1 tree d "[id]" true))
         (flat_map (fun d => map (PosixPath.join d) (Glob._glob0 tree d "orders" true))
            (flat_map (fun d => map (PosixPath.join d) (Glob._glob0 tree d "account" true))
               (flat_map (fun d => map (PosixPath.join d) (Glob._glob1 tree d "[locale]" true))
                  ["src/app"])))).
Proof. reflexivity. Qed.

Lemma glob_second_pattern (tree : FS.node) :
  Glob.glob tree "src/app/*/account/orders/*/page.tsx"
  = flat_map (fun d => map (PosixPath.join d) (Glob._glob0 tree d "page.tsx" false))
      (flat_map (fun d => map (PosixPath.join d) (Glob._glob1 tree d "*" true))
         (flat_map (fun d => map (PosixPath.join d) (Glob._glob0 tree d "orders" true))
            (flat_map (fun d => map (PosixPath.join d) (Glob._glob0 tree d "account" true))
               (flat_map (fun d => map (PosixPath.join d) (Glob._glob1 tree d "*" true))
                  ["src/app"])))).
Proof. reflexivity. Qed.

(** Both patterns have the same skeleton: two listed components around
    the fixed ones.  Whatever the wildcards, a match passes the filter. *)
Lemma skeleton_matches_accepted (tree : FS.node) (pat1 pat2 f : string) :
  FS.wf tree = true ->
  In f (flat_map (fun d => map (PosixPath.join d) (Glob._glob0 tree d "page.tsx" false))
      (flat_map (fun d => map (PosixPath.join d) (Glob._glob1 tree d pat2 true))
         (flat_map (fun d => map (PosixPath.join d) (Glob._glob0 tree d "orders" true))
            (flat_map (fun d => map (PosixPath.join d) (Glob._glob0 tree d "account" true))
               (flat_map (fun d => map (PosixPath.join d) (Glob._glob1 tree d pat1 true))
                  ["src/app"]))))) ->
  ReadOrders.accepted f = true.
Proof.
  intros Hw H.
  apply in_fixed_step in H as [d4 [H [_ ->]]].
  apply in_listing_step in H as [d3 [n2 [H [Hn2 ->]]]].
  apply in_fixed_step in H as [d2 [_ [_ ->]]].
  apply glob1_listed in Hn2 as [Hn2 _].
  apply (listdir_names_ok _ _ _ _ Hw), name_ok_relative in Hn2.
  unfold ReadOrders.accepted. apply andb_true_iff. split.
  - apply join_contains; [reflexivity|].
    apply join_contains; [exact Hn2|].
    apply join_contains_r; reflexivity.
  - apply join_endswith; reflexivity.
Qed.

(** A bracket expression with no range matches exactly the one-character
    names drawn from its body. *)
Lemma class_matches_one_char (body n : string) :
  Fnmatch.matches [Fnmatch.Class false (map Fnmatch.Single (list_ascii_of_string body))] n = true ->
  exists c, n = String c EmptyString /\ Str.mem c body = true.
Proof.
  destruct n as [|c [|c' r]]; simpl; try discriminate.
  - rewrite andb_true_r. unfold Fnmatch.class_matches; simpl xorb.
    intros H. exists c. split; [reflexivity|].
    induction body as [|b body IH]; simpl in *; [discriminate|].
    apply orb_true_iff in H as [H|H]; [rewrite H; reflexivity|].
    rewrite (IH H). apply orb_true_r.
  - rewrite andb_false_r. discriminate.
Qed.

Lemma join_chain_shape (c1 c2 : ascii) :
  Str.mem c1 "locale" = true -> Str.mem c2 "id" = true ->
  PosixPath.join
    (PosixPath.join
       (PosixPath.join
          (PosixPath.join (PosixPath.join "src/app" (String c1 EmptyString)) "account")
          "orders")
       (String c2 EmptyString))
    "page.tsx"
  = ("src/app/" ++ String c1 ("/account/orders/" ++ String c2 "/page.tsx"))%string.
Proof.
  simpl Str.mem. intros H1 H2.
  repeat (apply orb_true_iff in H1 as [H1|H1]); try discriminate;
    apply Ascii.eqb_eq in H1; subst c1;
    repeat (apply orb_true_iff in H2 as [H2|H2]); try discriminate;
    apply Ascii.eqb_eq in H2; subst c2; reflexivity.
Qed.

Lemma first_pattern_shape (tree : FS.node) (f : string) :
  In f (Glob.glob tree "src/app/[locale]/account/orders/[id]/page.tsx") ->
  exists c1 c2 : ascii,
    Str.mem c1 "locale" = true /\ Str.mem c2 "id" = true
    /\ f = ("src/app/" ++ String c1 ("/account/orders/" ++ String c2 "/page.tsx"))%string.
Proof.
  rewrite glob_first_pattern. intros H.
  apply in_fixed_step in H as [d4 [H [_ ->]]].
  apply in_listing_step in H as [d3 [n2 [H [Hn2 ->]]]].
  apply in_fixed_step in H as [d2 [H [_ ->]]].
  apply in_fixed_step in H as [d1 [H [_ ->]]].
  apply in_listing_step in H as [d0 [n1 [H [Hn1 ->]]]].
  destruct H as [<-|[]].
  apply glob1_listed in Hn1 as [_ Hn1]. apply glob1_listed in Hn2 as [_ Hn2].
  apply (class_matches_one_char "locale") in Hn1 as [c1 [-> Hc1]].
  apply (class_matches_one_char "id") in Hn2 as [c2 [-> Hc2]].
  exists c1, c2. split; [exact Hc1|]. split; [exact Hc2|].
  apply join_chain_shape; assumption.
Qed.

(** What the tree must hold for a path to resolve through a named entry. *)
Lemma walk_through (n : FS.node) (c : string) (rest : list string) (x : FS.node) :
  Str.is_empty c || String.eqb c "." = false ->
  FS.walk n (c :: rest) = Some x ->
  exists l es child,
    n = FS.Dir l es /\ In (c, child) es /\ FS.walk child rest = Some x.
Proof.
  intros Hc. simpl. destruct n as [r d|l es]; [discriminate|].
  rewrite Hc. destruct (FS.assoc c es) as [child|] eqn:E; [|discriminate].
  intros H. exists l, es, child. repeat split; auto. apply assoc_In; exact E.
Qed.

Lemma walk_into_directory (n : FS.node) (c : string) (rest : list string) (x : FS.node) :
  FS.walk n (c :: rest) = Some x -> FS.is_dir n = true.
Proof. destruct n; [discriminate|reflexivity]. Qed.

Lemma walk_prefix (a b : list string) (n x : FS.node) :
  FS.walk n (a ++ b) = Some x ->
  exists m, FS.walk n a = Some m /\ FS.walk m b = Some x.
Proof.
  rewrite walk_app. destruct (FS.walk n a) as [m|]; [|discriminate].
  intros H; exists m; auto.
Qed.

Lemma lexists_prefix (tree : FS.node) (p : string) (pre post : list string) (x : FS.node) :
  FS.lookup tree p = FS.walk tree pre ->
  FS.walk tree (pre ++ post) = Some x ->
  FS.lexists tree p = true.
Proof.
  intros Hp H. apply walk_prefix in H as [m [H _]].
  unfold FS.lexists. rewrite Hp, H. reflexivity.
Qed.

(** A directory on the way to something that exists shows up when its
    parent is listed for directories. *)
Lemma listed_directory (tree : FS.node) (dpath : string) (comps : list string)
      (c r : string) (rest : list string) (x : FS.node) :
  Str.is_empty dpath = false ->
  FS.lookup tree dpath = FS.walk tree comps ->
  FS.scandir tree dpath <> None ->
  Str.is_empty c || String.eqb c "." = false ->
  FS.walk tree (comps ++ c :: r :: rest) = Some x ->
  In c (Glob._listdir tree dpath true).
Proof.
  intros Hd Hp Hs Hc H.
  apply walk_prefix in H as [m [Hm H]].
  apply walk_through in H as [l [es [child [-> [Hin H]]]]]; [|exact Hc].
  apply walk_into_directory in H.
  unfold Glob._listdir. rewrite Hd.
  unfold FS.scandir in *. rewrite Hp, Hm in *.
  destruct l; [|congruence].
  apply in_map_iff. exists (c, child). split; [reflexivity|].
  apply filter_In. split; [exact Hin|exact H].
Qed.

Lemma glob1_intro (tree : FS.node) (d pat n : string) (dironly : bool) :
  In n (Glob._listdir tree d dironly) ->
  Glob._ishidden n = false ->
  Fnmatch.matches (Fnmatch.translate pat) n = true ->
  In n (Glob._glob1 tree d pat dironly).
Proof.
  intros Hl Hh Hm. unfold Glob._glob1, Fnmatch.filter.
  apply filter_In. split; [|exact Hm].
  destruct (negb (Glob._ishidden pat)); [|exact Hl].
  apply filter_In. split; [exact Hl|]. rewrite Hh. reflexivity.
Qed.

Lemma glob0_intro (tree : FS.node) (d b : string) (dironly : bool) :
  Str.is_empty b = false ->
  FS.lexists tree (Glob._join d b) = true ->
  In b (Glob._glob0 tree d b dironly).
Proof.
  intros Hb Hx. unfold Glob._glob0. rewrite Hb, Hx. left; reflexivity.
Qed.

Lemma step_intro (g : string -> list string) (ds : list string) (d n : string) :
  In d ds -> In n (g d) ->
  In (PosixPath.join d n) (flat_map (fun d => map (PosixPath.join d) (g d)) ds).
Proof.
  intros Hd Hn. apply in_flat_map. exists d. split; [exact Hd|].
  apply in_map. exact Hn.
Qed.

(** The layout of the application is found by the second pattern. *)
Lemma literal_layout_matched_by_wildcards (tree : FS.node) :
  FS.lexists tree "src/app/[locale]/account/orders/[id]/page.tsx" = true ->
  FS.scandir tree "src/app" <> None ->
  FS.scandir tree "src/app/[locale]/account/orders" <> None ->
  In "src/app/[locale]/account/orders/[id]/page.tsx"
     (Glob.glob tree "src/app/*/account/orders/*/page.tsx").
Proof.
  intros Hx Hs1 Hs2. rewrite glob_second_pattern.
  pose proof Hx as Hx'. unfold FS.lexists in Hx'.
  destruct (FS.lookup tree "src/app/[locale]/account/orders/[id]/page.tsx") as [x|] eqn:E;
    [clear Hx'|discriminate].
  change (FS.walk tree ["src"; "app"; "[locale]"; "account"; "orders"; "[id]"; "page.tsx"]
          = Some x) in E.
  apply (step_intro (fun d => Glob._glob0 tree d "page.tsx" false) _
           "src/app/[locale]/account/orders/[id]" "page.tsx").
  2:{ apply glob0_intro; [reflexivity|exact Hx]. }
  apply (step_intro (fun d => Glob._glob1 tree d "*" true) _
           "src/app/[locale]/account/orders" "[id]").
  2:{ apply glob1_intro; [|reflexivity|reflexivity].
      apply (listed_directory tree _ ["src"; "app"; "[locale]"; "account"; "orders"]
               "[id]" "page.tsx" [] x); auto. }
  apply (step_intro (fun d => Glob._glob0 tree d "orders" true) _
           "src/app/[locale]/account" "orders").
  2:{ apply glob0_intro; [reflexivity|].
      apply (lexists_prefix tree _ ["src"; "app"; "[locale]"; "account"; "orders"]
               ["[id]"; "page.tsx"] x); [reflexivity|exact E]. }
  apply (step_intro (fun d => Glob._glob0 tree d "account" true) _
           "src/app/[locale]" "account").
  2:{ apply glob0_intro; [reflexivity|].
      apply (lexists_prefix tree _ ["src"; "app"; "[locale]"; "account"]
               ["orders"; "[id]"; "page.tsx"] x); [reflexivity|exact E]. }
  apply (step_intro (fun d => Glob._glob1 tree d "*" true) _ "src/app" "[locale]").
  2:{ apply glob1_intro; [|reflexivity|reflexivity].
      apply (listed_directory tree _ ["src"; "app"]
               "[locale]" "account" ["orders"; "[id]"; "page.tsx"] x); auto. }
  left; reflexivity.
Qed.

(* ================================================================== *)
(** * The claims *)

(** ** C1 *)

(** C1.  The paths of the [Found] lines are, in order and with
    repetitions, the matches of the first pattern that pass the filter
    followed by the matches of the second pattern that pass it; a path
    is announced as many times as the two filtered expansions list it
    together. *)
Theorem found_lines_are_the_filtered_matches (tree : FS.node) :
  Trace.found_paths (ReadOrders.output tree)
  = flat_map (fun pattern => List.filter ReadOrders.accepted (Glob.glob tree pattern))
      ReadOrders.patterns
  /\ Permutation
       (Trace.found_paths (ReadOrders.output tree))
       (flat_map (fun pattern => List.filter ReadOrders.accepted (Glob.glob tree pattern))
          ReadOrders.patterns)
  /\ forall f : string,
       count_occ string_dec (Trace.found_paths (ReadOrders.output tree)) f
       = count_occ string_dec
           (List.filter ReadOrders.accepted
              (Glob.glob tree "src/app/[locale]/account/orders/[id]/page.tsx")) f
         + count_occ string_dec
             (List.filter ReadOrders.accepted
                (Glob.glob tree "src/app/*/account/orders/*/page.tsx")) f.
Proof.
  assert (E : Trace.found_paths (ReadOrders.output tree)
              = flat_map (fun pattern => List.filter ReadOrders.accepted (Glob.glob tree pattern))
                  ReadOrders.patterns).
  { rewrite output_spec, found_paths_app, !found_paths_loop.
    unfold ReadOrders.patterns; simpl. rewrite app_nil_r. reflexivity. }
  split; [exact E|]. split; [rewrite E; apply Permutation_refl|].
  intros f. rewrite E. unfold ReadOrders.patterns; simpl.
  rewrite app_nil_r. apply count_occ_app.
Qed.

(** ** C2 *)

(** C2, as stated, fails on a file with a Windows line ending: the text
    printed is not the content of the file. *)
Lemma crlf_content_is_not_printed_verbatim :
  ReadOrders.accepted page_42 = true
  /\ FS.lookup (single_page_fs crlf_text) page_42 = Some (FS.File true crlf_text)
  /\ TextIO.utf8_valid crlf_text = true
  /\ ReadOrders.output (single_page_fs crlf_text)
     = [Py.Found page_42; Py.Separator; Py.Content lf_text]
  /\ ReadOrders.output (single_page_fs crlf_text)
     <> [Py.Found page_42; Py.Separator; Py.Content crlf_text].
Proof.
  repeat split; try (vm_compute; reflexivity).
  vm_compute. discriminate.
Qed.

(** C2, amended.  For an accepted path naming a readable file whose bytes
    are well-formed UTF-8, and as long as standard output takes the
    lines: the script prints the [Found] line, a line of 80 [=] and then
    the text of the file in which every CR LF and every lone CR has
    become LF; that text is the content itself when the file holds no
    CR.  This is so for the program, whose standard output takes every
    line, and for the script run with any [print] whose three calls
    return: they are made in that order, with the file opened and read
    in between and closed at the end, and nothing else is printed. *)
Theorem found_separator_then_text (tree : FS.node) (f data : string) :
  ReadOrders.accepted f = true ->
  FS.lookup tree f = Some (FS.File true data) ->
  TextIO.utf8_valid data = true ->
  Trace.lines_for tree f
  = [Py.Found f; Py.Separator; Py.Content (TextIO.universal_newlines data)]
  /\ (forall str : Py.exn -> string,
        Py.stdout_text str (Trace.lines_for tree f)
        = ("Found: " ++ f ++ Py.newline
           ++ Str.repeat "=" 80 ++ Py.newline
           ++ TextIO.universal_newlines data ++ Py.newline)%string)
  /\ (Str.mem "013" data = false -> TextIO.universal_newlines data = data)
  /\ (forall (print : Py.out_line -> Py.M unit) (w_start w_found w_sep w_end : Py.world),
        print (Py.Found f) w_start = (Py.Ok tt, w_found) ->
        Py.fs w_found = tree ->
        print Py.Separator
          (Py.mkWorld tree
             ((Py.next_handle w_found, f) :: Py.open_files w_found)
             (S (Py.next_handle w_found))
             (Py.log w_found
              ++ [Py.EvOpen f (Py.next_handle w_found); Py.EvRead (Py.next_handle w_found)]))
        = (Py.Ok tt, w_sep) ->
        print (Py.Content (TextIO.universal_newlines data)) w_sep = (Py.Ok tt, w_end) ->
        ReadOrders.visit print f w_start
        = (Py.Ok tt, snd (Py.close (Py.next_handle w_found) w_end))).
Proof.
  intros Ha Hl Hv.
  assert (E : Trace.lines_for tree f
              = [Py.Found f; Py.Separator; Py.Content (TextIO.universal_newlines data)]).
  { apply lines_for_success; auto.
    rewrite open_and_read_cases, Hl. unfold TextIO.read_all. rewrite Hv. reflexivity. }
  split; [exact E|]. split; [|split].
  - intros str. rewrite E. unfold Py.stdout_text, Py.render.
    rewrite append_empty_r, !append_assoc. reflexivity.
  - apply universal_newlines_without_cr.
  - intros print w_start w_found w_sep w_end Hf Ht Hs Hc.
    unfold ReadOrders.visit. rewrite Ha.
    unfold Py.bind at 1. rewrite Hf.
    unfold Py.try_except_Exception, ReadOrders.read_and_print, Py.with_open, Py.open_r.
    rewrite Ht, Hl.
    unfold Py.bind at 1. unfold Py.read at 1.
    cbn [Py.fs Py.log Py.open_files Py.next_handle Py.path_of].
    rewrite Nat.eqb_refl, Hl.
    unfold TextIO.read_all. rewrite Hv.
    unfold Py.emit. cbn [Py.fs Py.log Py.open_files Py.next_handle].
    rewrite <- app_assoc. cbn [app].
    unfold Py.bind. rewrite Hs, Hc. reflexivity.
Qed.

Lemma found_separator_then_text_witness :
  Trace.lines_for sample_fs page_42 = [Py.Found page_42; Py.Separator; Py.Content "X"].
Proof.
  exact (proj1 (found_separator_then_text sample_fs page_42 "X"
                  eq_refl eq_refl eq_refl)).
Defined.

(** ** C3 *)

(** C3.  When opening an accepted path, or reading and decoding it,
    raises [e], the script prints the [Found] line and directly after it
    the [Error reading] line, nothing else; the loop then goes on with
    the remaining candidates, and the run as a whole completes. *)
Theorem read_failure_is_reported_and_survived
        (tree : FS.node) (f : string) (rest : list string) (e : Py.exn) :
  ReadOrders.accepted f = true ->
  fst (Py.with_open f Py.read (Py.initial tree)) = Py.Raise e ->
  Trace.lines_for tree f = [Py.Found f; Py.ErrorReading f e]
  /\ (forall str : Py.exn -> string,
        Py.stdout_text str (Trace.lines_for tree f)
        = ("Found: " ++ f ++ Py.newline
           ++ "Error reading " ++ f ++ ": " ++ str e ++ Py.newline)%string)
  /\ fst (Py.for_each (f :: rest) (ReadOrders.visit Py.print) (Py.initial tree)) = Py.Ok tt
  /\ Py.printed (Py.log (snd (Py.for_each (f :: rest) (ReadOrders.visit Py.print) (Py.initial tree))))
     = [Py.Found f; Py.ErrorReading f e] ++ flat_map (Trace.lines_for tree) rest
  /\ fst (ReadOrders.run tree) = Py.Ok tt.
Proof.
  intros Ha Hr.
  pose proof (lines_for_failure tree f e Ha Hr) as E.
  split; [exact E|]. split; [|split; [|split]].
  - intros str. rewrite E. unfold Py.stdout_text, Py.render.
    rewrite append_empty_r, !append_assoc. reflexivity.
  - rewrite for_each_visit_spec by reflexivity. reflexivity.
  - rewrite for_each_visit_spec by reflexivity.
    cbn [snd Py.log Py.initial Py.fs Py.next_handle].
    rewrite printed_app, printed_loop_events.
    cbn [flat_map Py.printed app]. rewrite E. reflexivity.
  - rewrite run_spec. reflexivity.
Qed.

Lemma read_failure_is_reported_and_survived_witness :
  Trace.lines_for (single_page_fs undecodable) page_42
  = [Py.Found page_42; Py.ErrorReading page_42 (Py.UnicodeDecodeError undecodable)].
Proof.
  exact (proj1 (read_failure_is_reported_and_survived
                  (single_page_fs undecodable) page_42 [page_42]
                  (Py.UnicodeDecodeError undecodable) eq_refl eq_refl)).
Defined.

(** ** C4 *)

(** C4.  When no path produced by either pattern passes the filter, the
    script prints nothing and the process ends normally, with status 0. *)
Theorem no_accepted_match_prints_nothing (tree : FS.node) :
  (forall pattern f : string,
     In pattern ReadOrders.patterns -> In f (Glob.glob tree pattern) ->
     ReadOrders.accepted f = false) ->
  ReadOrders.output tree = []
  /\ (forall str : Py.exn -> string, Py.stdout_text str (ReadOrders.output tree) = EmptyString)
  /\ fst (ReadOrders.run tree) = Py.Ok tt
  /\ Py.exit_code (fst (ReadOrders.run tree)) = 0.
Proof.
  intros H.
  assert (N : forall files : list string,
             (forall f, In f files -> ReadOrders.accepted f = false) ->
             flat_map (Trace.lines_for tree) files = []).
  { induction files as [|f rest IH]; intros Hf; simpl; auto.
    rewrite lines_for_rejected by (apply Hf; left; reflexivity).
    apply IH. intros g Hg. apply Hf. right; exact Hg. }
  assert (E : ReadOrders.output tree = []).
  { rewrite output_spec.
    rewrite !N; auto; intros f Hf; eapply H; eauto; unfold ReadOrders.patterns; simpl; auto. }
  split; [exact E|]. split; [intros str; rewrite E; reflexivity|].
  rewrite run_spec. split; reflexivity.
Qed.

Lemma no_accepted_match_prints_nothing_witness :
  ReadOrders.output (FS.Dir true []) = [].
Proof.
  refine (proj1 (no_accepted_match_prints_nothing (FS.Dir true []) _)).
  intros pattern f [<-|[<-|[]]] Hf; vm_compute in Hf; destruct Hf.
Defined.

(** ** C5 *)

Lemma lines_of_pattern_spec (tree : FS.node) (pattern : string) :
  Trace.lines_of_pattern tree pattern
  = flat_map (Trace.lines_for tree) (Glob.glob tree pattern).
Proof.
  unfold Trace.lines_of_pattern. rewrite for_each_visit_spec by reflexivity.
  cbn [snd Py.log Py.initial Py.fs Py.next_handle].
  rewrite printed_app, printed_loop_events. reflexivity.
Qed.

(** C5.  Everything the run prints is what the matches of the first
    pattern contribute followed by what the matches of the second
    contribute; the contribution of a pattern is that of its matches one
    after the other in the order in which glob returned them.  The log of
    events splits the same way. *)
Theorem first_pattern_output_precedes_second (tree : FS.node) :
  ReadOrders.output tree
  = Trace.lines_of_pattern tree "src/app/[locale]/account/orders/[id]/page.tsx"
    ++ Trace.lines_of_pattern tree "src/app/*/account/orders/*/page.tsx"
  /\ (forall pattern : string,
        Trace.lines_of_pattern tree pattern
        = flat_map (Trace.lines_for tree) (Glob.glob tree pattern))
  /\ exists events1 events2 : list Py.event,
       Py.log (snd (ReadOrders.run tree)) = events1 ++ events2
       /\ Py.printed events1
          = Trace.lines_of_pattern tree "src/app/[locale]/account/orders/[id]/page.tsx"
       /\ Py.printed events2
          = Trace.lines_of_pattern tree "src/app/*/account/orders/*/page.tsx".
Proof.
  split; [|split].
  - rewrite output_spec, !lines_of_pattern_spec. reflexivity.
  - apply lines_of_pattern_spec.
  - rewrite run_spec. cbn [snd Py.log].
    eexists; eexists; split; [reflexivity|].
    rewrite !lines_of_pattern_spec, !printed_loop_events. split; reflexivity.
Qed.

(** ** C6 *)

(** What a write would do, for contrast: opening a page for writing
    empties it, and the tree is no longer the same. *)
Example opening_for_writing_changes_the_tree :
  FS.lookup (Py.fs (snd (Py.open_w page_42 (Py.initial sample_fs)))) page_42
  = Some (FS.File true EmptyString)
  /\ Py.fs (snd (Py.open_w page_42 (Py.initial sample_fs))) <> sample_fs.
Proof.
  split; [vm_compute; reflexivity|].
  intros H.
  assert (X : FS.lookup (Py.fs (snd (Py.open_w page_42 (Py.initial sample_fs)))) page_42
              = FS.lookup sample_fs page_42) by (rewrite H; reflexivity).
  vm_compute in X. discriminate.
Qed.

(** The program started in any world in which no file is open. *)
Lemma main_spec (w : Py.world) :
  Py.open_files w = [] ->
  let files1 := Glob.glob (Py.fs w) "src/app/[locale]/account/orders/[id]/page.tsx" in
  let files2 := Glob.glob (Py.fs w) "src/app/*/account/orders/*/page.tsx" in
  ReadOrders.main w
  = (Py.Ok tt,
     Py.mkWorld (Py.fs w) []
       (Trace.loop_next (Py.fs w) (Trace.loop_next (Py.fs w) (Py.next_handle w) files1) files2)
       (Py.log w
        ++ Trace.loop_events (Py.fs w) (Py.next_handle w) files1
        ++ Trace.loop_events (Py.fs w)
             (Trace.loop_next (Py.fs w) (Py.next_handle w) files1) files2)).
Proof.
  intros Hw files1 files2.
  unfold ReadOrders.main, ReadOrders.script, ReadOrders.patterns.
  cbn [Py.for_each]. unfold Py.bind at 1 2. unfold ReadOrders.glob_glob at 1.
  rewrite for_each_visit_spec by exact Hw.
  unfold Py.bind at 1 2. unfold ReadOrders.glob_glob at 1. cbn [Py.fs].
  rewrite for_each_visit_spec by reflexivity.
  unfold Py.ret. cbn [Py.fs Py.log Py.next_handle]. rewrite <- app_assoc. reflexivity.
Qed.

Lemma main_prints (w : Py.world) :
  Py.open_files w = [] ->
  Py.printed (Py.log (snd (ReadOrders.main w)))
  = Py.printed (Py.log w) ++ ReadOrders.output (Py.fs w).
Proof.
  intros Hw. rewrite (main_spec w Hw), output_spec. cbn [snd Py.log].
  rewrite !printed_app, !printed_loop_events. reflexivity.
Qed.

Lemma lines_for_agree (tree tree' : FS.node) (f : string) :
  FS.lookup tree' f = FS.lookup tree f ->
  Trace.lines_for tree' f = Trace.lines_for tree f.
Proof.
  intros H. rewrite (lines_for_events tree' 0 f), (lines_for_events tree 0 f).
  unfold Trace.visit_events. rewrite H. reflexivity.
Qed.

Lemma flat_map_agree {A B} (g g' : A -> list B) (l : list A) :
  (forall a, In a l -> g' a = g a) -> flat_map g' l = flat_map g l.
Proof.
  induction l as [|a l IH]; intros H; [reflexivity|].
  cbn [flat_map]. rewrite (H a (or_introl eq_refl)), IH; [reflexivity|].
  intros b Hb. apply H. right; exact Hb.
Qed.

Lemma stdout_text_app (str : Py.exn -> string) (l1 l2 : list Py.out_line) :
  Py.stdout_text str (l1 ++ l2)
  = (Py.stdout_text str l1 ++ Py.stdout_text str l2)%string.
Proof.
  induction l1 as [|o l1 IH]; [reflexivity|].
  cbn [app Py.stdout_text]. rewrite IH, !append_assoc. reflexivity.
Qed.

(** C6.  The program only ever opens files for reading: started in any
    world with no file open it ends normally in a world with the very
    same tree and no file open (where [Py.open_w], had it been called,
    would have left another tree).  A second run, started in the world
    the first one left behind, therefore prints the same lines again,
    although its file objects are new ones; and what a run prints
    depends only on what it looks at: two trees in which the patterns
    expand alike and the matched paths resolve alike give the same
    output. *)
Theorem run_is_read_only_and_repeatable (tree : FS.node) :
  Py.fs (snd (ReadOrders.run tree)) = tree
  /\ Py.open_files (snd (ReadOrders.run tree)) = []
  /\ ReadOrders.output (Py.fs (snd (ReadOrders.run tree))) = ReadOrders.output tree
  /\ (forall str : Py.exn -> string,
        Py.stdout_text str (ReadOrders.output (Py.fs (snd (ReadOrders.run tree))))
        = Py.stdout_text str (ReadOrders.output tree))
  /\ (forall w : Py.world,
        Py.open_files w = [] ->
        fst (ReadOrders.main w) = Py.Ok tt
        /\ Py.fs (snd (ReadOrders.main w)) = Py.fs w
        /\ Py.open_files (snd (ReadOrders.main w)) = []
        /\ Py.printed (Py.log (snd (ReadOrders.main w)))
           = Py.printed (Py.log w) ++ ReadOrders.output (Py.fs w))
  /\ Py.printed (Py.log (snd (ReadOrders.main (snd (ReadOrders.run tree)))))
     = ReadOrders.output tree ++ ReadOrders.output tree
  /\ (forall str : Py.exn -> string,
        Py.stdout_text str
          (Py.printed (Py.log (snd (ReadOrders.main (snd (ReadOrders.run tree))))))
        = (Py.stdout_text str (ReadOrders.output tree)
           ++ Py.stdout_text str (ReadOrders.output tree))%string)
  /\ (forall tree' : FS.node,
        (forall pattern : string,
           In pattern ReadOrders.patterns ->
           Glob.glob tree' pattern = Glob.glob tree pattern) ->
        (forall pattern f : string,
           In pattern ReadOrders.patterns -> In f (Glob.glob tree pattern) ->
           FS.lookup tree' f = FS.lookup tree f) ->
        ReadOrders.output tree' = ReadOrders.output tree).
Proof.
  assert (E : Py.fs (snd (ReadOrders.run tree)) = tree)
    by (rewrite run_spec; reflexivity).
  assert (O : Py.open_files (snd (ReadOrders.run tree)) = [])
    by (rewrite run_spec; reflexivity).
  assert (T : Py.printed (Py.log (snd (ReadOrders.main (snd (ReadOrders.run tree)))))
              = ReadOrders.output tree ++ ReadOrders.output tree).
  { rewrite (main_prints _ O), E. reflexivity. }
  split; [exact E|]. split; [exact O|].
  split; [rewrite E; reflexivity|]. split; [rewrite E; reflexivity|].
  split; [|split; [exact T|split]].
  - intros w Hw. pose proof (main_spec w Hw) as M. cbv zeta in M.
    split; [rewrite M; reflexivity|]. split; [rewrite M; reflexivity|].
    split; [rewrite M; reflexivity|]. apply main_prints. exact Hw.
  - intros str. rewrite T. apply stdout_text_app.
  - intros tree' Hg Hl. rewrite !output_spec.
    rewrite !Hg by (unfold ReadOrders.patterns; simpl; auto).
    f_equal; apply flat_map_agree; intros f Hf; apply lines_for_agree;
      eapply Hl; eauto; unfold ReadOrders.patterns; simpl; auto.
Qed.

Lemma run_is_read_only_and_repeatable_witness :
  ReadOrders.output
    (FS.Dir true
       (("README", page "elsewhere")
        :: match sample_fs with FS.Dir _ es => es | FS.File _ _ => [] end))
  = ReadOrders.output sample_fs.
Proof.
  refine (proj2 (proj2 (proj2 (proj2 (proj2 (proj2 (proj2
            (run_is_read_only_and_repeatable sample_fs))))))) _ _ _).
  - intros pattern [<-|[<-|[]]]; vm_compute; reflexivity.
  - intros pattern f [<-|[<-|[]]] Hf; vm_compute in Hf;
      repeat (destruct Hf as [<-|Hf]; [vm_compute; reflexivity|]); destruct Hf.
Defined.

(** ** C7 *)

(** C7.  Whatever the tree and the candidates, the loop does exactly
    this, candidate after candidate in the order given, and nothing
    else: a rejected candidate leaves no trace; an accepted one is
    announced, then that very path is opened; a file that opens is read
    once to the end through its own file object and closed, after the
    content is printed when the bytes decode, and before the
    [Error reading] line when they do not; a path that does not open is
    reported at once.  The next candidate is taken up in a world in
    which no file is open, and none is open when the loop ends.  The
    events therefore follow the discipline of [Trace.scoped], for the
    loop and for a whole run. *)
Theorem files_are_opened_read_and_closed_in_turn (tree : FS.node) (files : list string) :
  Py.log (snd (Py.for_each files (ReadOrders.visit Py.print) (Py.initial tree)))
  = Trace.loop_events tree 0 files
  /\ Trace.scoped Trace.Idle
       (Py.log (snd (Py.for_each files (ReadOrders.visit Py.print) (Py.initial tree))))
     = Some Trace.Idle
  /\ Py.open_files (snd (Py.for_each files (ReadOrders.visit Py.print) (Py.initial tree))) = []
  /\ Trace.scoped Trace.Idle (Py.log (snd (ReadOrders.run tree))) = Some Trace.Idle
  /\ Py.open_files (snd (ReadOrders.run tree)) = []
  /\ (forall (f : string) (rest : list string) (w : Py.world),
        Py.open_files w = [] ->
        Py.open_files (snd (ReadOrders.visit Py.print f w)) = []
        /\ Py.for_each (f :: rest) (ReadOrders.visit Py.print) w
           = Py.for_each rest (ReadOrders.visit Py.print)
               (snd (ReadOrders.visit Py.print f w)))
  /\ (forall (f : string) (w : Py.world),
        Py.open_files w = [] -> ReadOrders.accepted f = false ->
        ReadOrders.visit Py.print f w = (Py.Ok tt, w))
  /\ (forall (f data text : string) (w : Py.world),
        Py.open_files w = [] -> ReadOrders.accepted f = true ->
        FS.lookup (Py.fs w) f = Some (FS.File true data) ->
        TextIO.read_all data = Some text ->
        ReadOrders.visit Py.print f w
        = (Py.Ok tt,
           Py.mkWorld (Py.fs w) [] (S (Py.next_handle w))
             (Py.log w
              ++ [ Py.EvPrint (Py.Found f);
                   Py.EvOpen f (Py.next_handle w);
                   Py.EvRead (Py.next_handle w);
                   Py.EvPrint Py.Separator;
                   Py.EvPrint (Py.Content text);
                   Py.EvClose (Py.next_handle w) ])))
  /\ (forall (f data : string) (w : Py.world),
        Py.open_files w = [] -> ReadOrders.accepted f = true ->
        FS.lookup (Py.fs w) f = Some (FS.File true data) ->
        TextIO.read_all data = None ->
        ReadOrders.visit Py.print f w
        = (Py.Ok tt,
           Py.mkWorld (Py.fs w) [] (S (Py.next_handle w))
             (Py.log w
              ++ [ Py.EvPrint (Py.Found f);
                   Py.EvOpen f (Py.next_handle w);
                   Py.EvRead (Py.next_handle w);
                   Py.EvClose (Py.next_handle w);
                   Py.EvPrint (Py.ErrorReading f (Py.UnicodeDecodeError data)) ])))
  /\ (forall (f : string) (w : Py.world) (e : Py.exn),
        Py.open_files w = [] -> ReadOrders.accepted f = true ->
        fst (Py.open_r f w) = Py.Raise e ->
        ReadOrders.visit Py.print f w
        = (Py.Ok tt,
           Py.mkWorld (Py.fs w) [] (Py.next_handle w)
             (Py.log w
              ++ [ Py.EvPrint (Py.Found f);
                   Py.EvOpenFailed f e;
                   Py.EvPrint (Py.ErrorReading f e) ]))).
Proof.
  split.
  { rewrite for_each_visit_spec by reflexivity. reflexivity. }
  split.
  { rewrite for_each_visit_spec by reflexivity.
    cbn [snd Py.log Py.initial app]. apply scoped_loop_events. }
  split.
  { rewrite for_each_visit_spec by reflexivity. reflexivity. }
  split.
  { rewrite run_spec. cbn [snd Py.log].
    rewrite scoped_app, scoped_loop_events. apply scoped_loop_events. }
  split.
  { rewrite run_spec. reflexivity. }
  split.
  { intros f rest w Hw. rewrite (visit_spec f w Hw). split; [reflexivity|].
    cbn [Py.for_each]. unfold Py.bind. rewrite (visit_spec f w Hw). reflexivity. }
  split.
  { intros f w Hw Ha. rewrite (visit_spec f w Hw).
    unfold Trace.visit_next, Trace.visit_events. rewrite Ha, app_nil_r.
    destruct w; simpl in *; subst; reflexivity. }
  split.
  { intros f data text w Hw Ha Hl Hr. rewrite (visit_spec f w Hw).
    unfold Trace.visit_next, Trace.visit_events. rewrite Ha, Hl, Hr. reflexivity. }
  split.
  { intros f data w Hw Ha Hl Hr. rewrite (visit_spec f w Hw).
    unfold Trace.visit_next, Trace.visit_events. rewrite Ha, Hl, Hr. reflexivity. }
  intros f w e Hw Ha Ho. rewrite (visit_spec f w Hw).
  unfold Trace.visit_next, Trace.visit_events. rewrite Ha.
  unfold Py.open_r in Ho.
  destruct (FS.lookup (Py.fs w) f) as [[[|] data|l es]|]; simpl in Ho;
    try discriminate; injection Ho as <-; reflexivity.
Qed.

Lemma files_are_opened_read_and_closed_in_turn_witness :
  ReadOrders.visit Py.print page_42 (Py.initial (single_page_fs undecodable))
  = (Py.Ok tt,
     Py.mkWorld (single_page_fs undecodable) [] 1
       [ Py.EvPrint (Py.Found page_42);
         Py.EvOpen page_42 0; Py.EvRead 0; Py.EvClose 0;
         Py.EvPrint (Py.ErrorReading page_42 (Py.UnicodeDecodeError undecodable)) ]).
Proof.
  destruct (files_are_opened_read_and_closed_in_turn (single_page_fs undecodable) [])
    as (_ & _ & _ & _ & _ & _ & _ & _ & H & _).
  apply (H page_42 undecodable (Py.initial (single_page_fs undecodable))); reflexivity.
Defined.

(** ** C8 *)




(** ** C9 *)

(** C9.  In a tree whose directories hold proper entry names, every path
    either pattern expands to contains "orders" and ends in ".tsx": the
    filter removes nothing, and every match gets its [Found] line. *)
Theorem filter_accepts_every_glob_match (tree : FS.node) :
  FS.wf tree = true ->
  (forall pattern f : string,
     In pattern ReadOrders.patterns -> In f (Glob.glob tree pattern) ->
     ReadOrders.accepted f = true)
  /\ (forall pattern : string,
        In pattern ReadOrders.patterns ->
        List.filter ReadOrders.accepted (Glob.glob tree pattern) = Glob.glob tree pattern)
  /\ Trace.found_paths (ReadOrders.output tree)
     = Glob.glob tree "src/app/[locale]/account/orders/[id]/page.tsx"
       ++ Glob.glob tree "src/app/*/account/orders/*/page.tsx".
Proof.
  intros Hw.
  assert (A : forall pattern f : string,
             In pattern ReadOrders.patterns -> In f (Glob.glob tree pattern) ->
             ReadOrders.accepted f = true).
  { intros pattern f [<-|[<-|[]]] Hf.
    - rewrite glob_first_pattern in Hf. eapply skeleton_matches_accepted; eauto.
    - rewrite glob_second_pattern in Hf. eapply skeleton_matches_accepted; eauto. }
  assert (B : forall pattern : string,
             In pattern ReadOrders.patterns ->
             List.filter ReadOrders.accepted (Glob.glob tree pattern) = Glob.glob tree pattern).
  { intros pattern Hp. apply forallb_filter_id. apply forallb_forall.
    intros f Hf. apply (A pattern f Hp Hf). }
  split; [exact A|]. split; [exact B|].
  rewrite output_spec, found_paths_app, !found_paths_loop.
  rewrite !B by (unfold ReadOrders.patterns; simpl; auto). reflexivity.
Qed.

Lemma filter_accepts_every_glob_match_witness :
  List.filter ReadOrders.accepted (Glob.glob sample_fs "src/app/*/account/orders/*/page.tsx")
  = Glob.glob sample_fs "src/app/*/account/orders/*/page.tsx".
Proof.
  refine (proj1 (proj2 (filter_accepts_every_glob_match sample_fs eq_refl)) _ _).
  right; left; reflexivity.
Defined.

(** ** C10 *)

(** C10.  The first pattern only ever yields paths in which the locale
    directory is one character out of "locale" and the id directory one
    character out of "id"; in particular it never yields the path
    through directories literally named [[locale]] and [[id]].  That
    path, when it exists and the directories above the wildcards can be
    listed, is among the matches of the second pattern. *)
Theorem bracketed_segments_are_character_classes (tree : FS.node) :
  (forall f : string,
     In f (Glob.glob tree "src/app/[locale]/account/orders/[id]/page.tsx") ->
     exists c1 c2 : ascii,
       Str.mem c1 "locale" = true /\ Str.mem c2 "id" = true
       /\ f = ("src/app/" ++ String c1 ("/account/orders/" ++ String c2 "/page.tsx"))%string)
  /\ ~ In "src/app/[locale]/account/orders/[id]/page.tsx"
         (Glob.glob tree "src/app/[locale]/account/orders/[id]/page.tsx")
  /\ (FS.lexists tree "src/app/[locale]/account/orders/[id]/page.tsx" = true ->
      FS.scandir tree "src/app" <> None ->
      FS.scandir tree "src/app/[locale]/account/orders" <> None ->
      In "src/app/[locale]/account/orders/[id]/page.tsx"
         (Glob.glob tree "src/app/*/account/orders/*/page.tsx")).
Proof.
  split; [apply first_pattern_shape|]. split.
  - intros H. apply first_pattern_shape in H as [c1 [c2 [_ [_ H]]]].
    simpl in H. congruence.
  - apply literal_layout_matched_by_wildcards.
Qed.

Lemma bracketed_segments_are_character_classes_witness :
  In "src/app/[locale]/account/orders/[id]/page.tsx"
     (Glob.glob sample_fs "src/app/*/account/orders/*/page.tsx").
Proof.
  refine (proj2 (proj2 (bracketed_segments_are_character_classes sample_fs)) eq_refl _ _);
    vm_compute; discriminate.
Defined.

(* ================================================================== *)
(** * Further properties of the script *)

(** ** What the string tests mean *)

Lemma startswith_iff (s p : string) :
  Str.startswith s p = true <-> exists t, s = (p ++ t)%string.
Proof.
  revert s; induction p as [|a p IH]; intros s; simpl.
  - split; [intros _; exists s; reflexivity|reflexivity].
  - destruct s as [|b s].
    + split; [discriminate|intros [t H]; discriminate].
    + rewrite andb_true_iff, Ascii.eqb_eq, IH. split.
      * intros [-> [t ->]]. exists t; reflexivity.
      * intros [t [= -> ->]]. split; [reflexivity|exists t; reflexivity].
Qed.

Lemma contains_iff (sub s : string) :
  Str.contains sub s = true <-> exists a b, s = (a ++ sub ++ b)%string.
Proof.
  induction s as [|c s IH]; simpl.
  - rewrite orb_false_r, startswith_iff. split.
    + intros [t H]. exists EmptyString, t. exact H.
    + intros [a [b H]]. destruct a; [exists b; exact H|discriminate].
  - rewrite orb_true_iff, startswith_iff, IH. split.
    + intros [[t H]|[a [b H]]].
      * exists EmptyString, t. exact H.
      * exists (String c a), b. simpl. congruence.
    + intros [[|x a] [b H]].
      * left. exists b. exact H.
      * right. simpl in H. injection H as -> ->. exists a, b. reflexivity.
Qed.

Lemma endswith_iff (s p : string) :
  Str.endswith s p = true <-> exists a, s = (a ++ p)%string.
Proof.
  induction s as [|c s IH].
  - simpl. rewrite orb_false_r. split.
    + intros H. exists EmptyString. destruct p; [reflexivity|discriminate].
    + intros [[|x a] H]; [|discriminate]. simpl in H. subst p. reflexivity.
  - change (Str.endswith (String c s) p)
      with (String.eqb (String c s) p || Str.endswith s p).
    rewrite orb_true_iff, String.eqb_eq, IH. split.
    + intros [<-|[a ->]].
      * exists EmptyString; reflexivity.
      * exists (String c a); reflexivity.
    + intros [[|x a] H].
      * left. exact H.
      * right. simpl in H. injection H as -> ->. exists a; reflexivity.
Qed.

(** X1.  The filter of the inner loop lets a path through exactly when
    "orders" occurs somewhere in it and ".tsx" are its last four
    characters. *)
Theorem accepted_means_orders_inside_and_tsx_at_the_end (f : string) :
  ReadOrders.accepted f = true
  <-> (exists a b : string, f = (a ++ "orders" ++ b)%string)
      /\ (exists c : string, f = (c ++ ".tsx")%string).
Proof.
  unfold ReadOrders.accepted.
  rewrite andb_true_iff, contains_iff, endswith_iff. reflexivity.
Qed.

(** ** Paths as strings *)

Lemma split_on_nonempty (c : ascii) (s : string) : Str.split_on c s <> [].
Proof.
  destruct s as [|d s]; simpl; [discriminate|].
  destruct (Str.split_on c s); [discriminate|].
  destruct (Ascii.eqb d c); discriminate.
Qed.

Lemma split_on_sep (c : ascii) (a b : string) :
  Str.split_on c (a ++ String c b)%string = Str.split_on c a ++ Str.split_on c b.
Proof.
  induction a as [|d a IH]; simpl.
  - rewrite Ascii.eqb_refl.
    destruct (Str.split_on c b) eqn:E; [destruct (split_on_nonempty c b E)|reflexivity].
  - rewrite IH.
    destruct (Str.split_on c a) eqn:E; [destruct (split_on_nonempty c a E)|].
    simpl. destruct (Ascii.eqb d c); reflexivity.
Qed.

Lemma startswith_nonempty_append (a b : string) (p : ascii) :
  Str.is_empty a = false ->
  Str.startswith (a ++ b)%string (String p EmptyString)
  = Str.startswith a (String p EmptyString).
Proof. destruct a; [discriminate|reflexivity]. Qed.

(** What lies on the way to something that exists, exists. *)
Lemma lexists_parent (tree : FS.node) (a b : string) :
  Str.is_empty a = false ->
  FS.lexists tree (a ++ "/" ++ b)%string = true ->
  FS.lexists tree a = true.
Proof.
  intros Ha. unfold FS.lexists, FS.lookup.
  rewrite (startswith_nonempty_append a _ "/" Ha), Ha.
  assert (E : Str.is_empty (a ++ "/" ++ b)%string = false)
    by (destruct a; [discriminate|reflexivity]).
  rewrite E.
  destruct (Str.startswith a (String "/" EmptyString)) eqn:Hs.
  - rewrite orb_true_r. intros H; exact H.
  - rewrite orb_false_r.
    change ("/" ++ b)%string with (String "/" b).
    unfold PosixPath.sep. rewrite split_on_sep, walk_app.
    destruct (FS.walk tree (Str.split_on "/" a)); [reflexivity|discriminate].
Qed.

Lemma endswith_nonempty_append (a b : string) (c : ascii) :
  Str.is_empty b = false ->
  Str.endswith (a ++ b)%string (String c EmptyString)
  = Str.endswith b (String c EmptyString).
Proof.
  intros Hb. induction a as [|d a IH]; [reflexivity|].
  change (Str.endswith (String d a ++ b)%string (String c EmptyString))
    with (String.eqb (String d (a ++ b)%string) (String c EmptyString)
          || Str.endswith (a ++ b)%string (String c EmptyString)).
  rewrite IH.
  destruct (a ++ b)%string eqn:E.
  - destruct a; [simpl in E; subst b|]; discriminate.
  - simpl String.eqb. destruct (Ascii.eqb d c); reflexivity.
Qed.

Lemma endswith_char_mem (n : string) (c : ascii) :
  Str.endswith n (String c EmptyString) = true -> Str.mem c n = true.
Proof.
  induction n as [|d n IH]; [discriminate|].
  change (Str.endswith (String d n) (String c EmptyString))
    with (String.eqb (String d n) (String c EmptyString)
          || Str.endswith n (String c EmptyString)).
  simpl Str.mem. intros H. apply orb_true_iff in H as [H|H].
  - apply String.eqb_eq in H. injection H as -> _.
    rewrite Ascii.eqb_refl. reflexivity.
  - rewrite (IH H). apply orb_true_r.
Qed.

Lemma name_ok_facts (n : string) :
  FS.name_ok n = true ->
  Str.is_empty n = false
  /\ Str.startswith n "/" = false
  /\ Str.endswith n "/" = false.
Proof.
  intros H. pose proof (name_ok_relative n H) as Hr.
  unfold FS.name_ok in H.
  repeat (apply andb_true_iff in H as [H ?]).
  apply negb_true_iff in H.
  repeat split; auto.
  destruct (Str.endswith n "/") eqn:E; [|reflexivity].
  apply endswith_char_mem in E.
  match goal with Hm : negb (Str.mem "/" n) = true |- _ => rewrite E in Hm; discriminate end.
Qed.

Lemma join_plain (a b : string) :
  Str.is_empty a = false ->
  Str.endswith a "/" = false ->
  Str.startswith b "/" = false ->
  PosixPath.join a b = (a ++ "/" ++ b)%string.
Proof. intros Ha He Hb. unfold PosixPath.join. rewrite Hb, Ha, He. reflexivity. Qed.

(** The five joins the expansion of either pattern performs. *)
Lemma join_locale (n1 : string) :
  FS.name_ok n1 = true -> PosixPath.join "src/app" n1 = ("src/app/" ++ n1)%string.
Proof.
  intros H. destruct (name_ok_facts n1 H) as [_ [Hs _]].
  rewrite join_plain; [reflexivity|reflexivity|reflexivity|exact Hs].
Qed.

Lemma join_account (n1 : string) :
  FS.name_ok n1 = true ->
  PosixPath.join ("src/app/" ++ n1)%string "account"
  = ("src/app/" ++ n1 ++ "/account")%string.
Proof.
  intros H. destruct (name_ok_facts n1 H) as [Hn [_ He]].
  rewrite join_plain; [| reflexivity | | reflexivity].
  - rewrite append_assoc. reflexivity.
  - rewrite endswith_nonempty_append; assumption.
Qed.

Lemma join_orders (n1 : string) :
  PosixPath.join ("src/app/" ++ n1 ++ "/account")%string "orders"
  = Layout.orders_path n1.
Proof.
  rewrite join_plain; [| reflexivity | | reflexivity].
  - unfold Layout.orders_path. rewrite !append_assoc. reflexivity.
  - rewrite <- append_assoc. rewrite endswith_nonempty_append; reflexivity.
Qed.

Lemma orders_path_no_slash_at_end (n1 : string) :
  Str.endswith (Layout.orders_path n1) "/" = false.
Proof.
  unfold Layout.orders_path.
  rewrite <- append_assoc. rewrite endswith_nonempty_append; reflexivity.
Qed.

Lemma join_ident (n1 n2 : string) :
  FS.name_ok n2 = true ->
  PosixPath.join (Layout.orders_path n1) n2
  = (Layout.orders_path n1 ++ "/" ++ n2)%string.
Proof.
  intros H. destruct (name_ok_facts n2 H) as [_ [Hs _]].
  rewrite join_plain; [reflexivity | reflexivity | | exact Hs].
  apply orders_path_no_slash_at_end.
Qed.

Lemma join_page (n1 n2 : string) :
  FS.name_ok n2 = true ->
  PosixPath.join (Layout.orders_path n1 ++ "/" ++ n2)%string "page.tsx"
  = Layout.page_path n1 n2.
Proof.
  intros H. destruct (name_ok_facts n2 H) as [Hn [_ He]].
  rewrite join_plain; [| reflexivity | | reflexivity].
  - unfold Layout.page_path, Layout.orders_path. rewrite !append_assoc. reflexivity.
  - change (Layout.orders_path n1 ++ "/" ++ n2)%string
      with (Layout.orders_path n1 ++ String "/" n2)%string.
    rewrite endswith_nonempty_append; [|reflexivity].
    change (String "/" n2) with ("/" ++ n2)%string.
    rewrite endswith_nonempty_append; assumption.
Qed.

Lemma glob0_elim (tree : FS.node) (d b x : string) (dironly : bool) :
  Str.is_empty b = false ->
  In x (Glob._glob0 tree d b dironly) ->
  FS.lexists tree (Glob._join d b) = true.
Proof.
  intros Hb. unfold Glob._glob0. rewrite Hb. simpl negb.
  destruct (FS.lexists tree (Glob._join d b)); [reflexivity|intros []].
Qed.

Lemma glob1_names_ok (tree : FS.node) (d pat n : string) (dironly : bool) :
  FS.wf tree = true -> In n (Glob._glob1 tree d pat dironly) -> FS.name_ok n = true.
Proof.
  intros Hw H. apply glob1_listed in H as [H _].
  eapply listdir_names_ok; eauto.
Qed.

Lemma listed_directory_exists (tree : FS.node) (d n : string) (dironly : bool) :
  Str.is_empty d = false ->
  In n (Glob._listdir tree d dironly) -> FS.lexists tree d = true.
Proof.
  intros Hd. unfold Glob._listdir, FS.scandir, FS.lexists. rewrite Hd.
  destruct (FS.lookup tree d); [reflexivity|intros []].
Qed.

(** The matches of a pattern [src/app/<pat1>/account/orders/<pat2>/page.tsx],
    in a well-formed tree: the pages that exist below a directory the
    first component selects in [src/app] and a directory the second
    component selects in that locale's orders directory. *)
Lemma skeleton_iff (tree : FS.node) (pat1 pat2 f : string) :
  FS.wf tree = true ->
  In f (flat_map (fun d => map (PosixPath.join d) (Glob._glob0 tree d "page.tsx" false))
      (flat_map (fun d => map (PosixPath.join d) (Glob._glob1 tree d pat2 true))
         (flat_map (fun d => map (PosixPath.join d) (Glob._glob0 tree d "orders" true))
            (flat_map (fun d => map (PosixPath.join d) (Glob._glob0 tree d "account" true))
               (flat_map (fun d => map (PosixPath.join d) (Glob._glob1 tree d pat1 true))
                  ["src/app"])))))
  <-> exists n1 n2 : string,
        f = Layout.page_path n1 n2
        /\ In n1 (Glob._glob1 tree "src/app" pat1 true)
        /\ In n2 (Glob._glob1 tree (Layout.orders_path n1) pat2 true)
        /\ FS.lexists tree (Layout.page_path n1 n2) = true.
Proof.
  intros Hw. split.
  - intros H.
    apply in_fixed_step in H as [d4 [H [Hp ->]]].
    apply in_listing_step in H as [d3 [n2 [H [Hn2 ->]]]].
    apply in_fixed_step in H as [d2 [H [_ ->]]].
    apply in_fixed_step in H as [d1 [H [_ ->]]].
    apply in_listing_step in H as [d0 [n1 [H [Hn1 ->]]]].
    destruct H as [<-|[]].
    pose proof (glob1_names_ok _ _ _ _ _ Hw Hn1) as Ho1.
    rewrite (join_locale n1 Ho1), (join_account n1 Ho1), (join_orders n1) in *.
    pose proof (glob1_names_ok _ _ _ _ _ Hw Hn2) as Ho2.
    rewrite (join_ident n1 n2 Ho2) in *.
    apply glob0_elim in Hp; [|reflexivity].
    change (Glob._join (Layout.orders_path n1 ++ "/" ++ n2)%string "page.tsx")
      with (PosixPath.join (Layout.orders_path n1 ++ "/" ++ n2)%string "page.tsx") in Hp.
    rewrite (join_page n1 n2 Ho2) in *.
    exists n1, n2. auto.
  - intros [n1 [n2 [-> [Hn1 [Hn2 Hx]]]]].
    pose proof (glob1_names_ok _ _ _ _ _ Hw Hn1) as Ho1.
    pose proof (glob1_names_ok _ _ _ _ _ Hw Hn2) as Ho2.
    assert (Hord : FS.lexists tree (Layout.orders_path n1) = true).
    { destruct (glob1_listed _ _ _ _ _ Hn2) as [Hl _].
      apply (listed_directory_exists tree (Layout.orders_path n1) n2 true eq_refl Hl). }
    assert (Hacc : FS.lexists tree ("src/app/" ++ n1 ++ "/account")%string = true).
    { apply (lexists_parent tree _ "orders"); [reflexivity|].
      unfold Layout.orders_path in Hord. rewrite !append_assoc. exact Hord. }
    rewrite <- (join_page n1 n2 Ho2).
    apply (step_intro (fun d => Glob._glob0 tree d "page.tsx" false)).
    2:{ apply glob0_intro; [reflexivity|].
        change (Glob._join (Layout.orders_path n1 ++ "/" ++ n2)%string "page.tsx")
          with (PosixPath.join (Layout.orders_path n1 ++ "/" ++ n2)%string "page.tsx").
        rewrite (join_page n1 n2 Ho2). exact Hx. }
    rewrite <- (join_ident n1 n2 Ho2).
    apply (step_intro (fun d => Glob._glob1 tree d pat2 true)); [|exact Hn2].
    rewrite <- (join_orders n1).
    apply (step_intro (fun d => Glob._glob0 tree d "orders" true)).
    2:{ apply glob0_intro; [reflexivity|].
        change (Glob._join ("src/app/" ++ n1 ++ "/account")%string "orders")
          with (PosixPath.join ("src/app/" ++ n1 ++ "/account")%string "orders").
        rewrite (join_orders n1). exact Hord. }
    rewrite <- (join_account n1 Ho1).
    apply (step_intro (fun d => Glob._glob0 tree d "account" true)).
    2:{ apply glob0_intro; [reflexivity|].
        change (Glob._join ("src/app/" ++ n1)%string "account")
          with (PosixPath.join ("src/app/" ++ n1)%string "account").
        rewrite (join_account n1 Ho1). exact Hacc. }
    rewrite <- (join_locale n1 Ho1).
    apply (step_intro (fun d => Glob._glob1 tree d pat1 true)); [|exact Hn1].
    left; reflexivity.
Qed.

(** ** What each pattern selects in a directory *)

Lemma matches_star (n : string) : Fnmatch.matches (Fnmatch.translate "*") n = true.
Proof.
  change (Fnmatch.translate "*") with [Fnmatch.Star].
  induction n as [|c n IH]; [reflexivity|].
  simpl in *. rewrite IH. reflexivity.
Qed.

Lemma glob1_star_iff (tree : FS.node) (d n : string) (dironly : bool) :
  In n (Glob._glob1 tree d "*" dironly)
  <-> In n (Glob._listdir tree d dironly) /\ Glob._ishidden n = false.
Proof.
  split.
  - unfold Glob._glob1, Fnmatch.filter. intros H.
    apply filter_In in H as [H _]. simpl negb in H. cbv match in H.
    apply filter_In in H as [H Hh]. apply negb_true_iff in Hh. auto.
  - intros [Hl Hh]. apply glob1_intro; auto. apply matches_star.
Qed.

Lemma one_char_matches_class (body : string) (c : ascii) :
  Str.mem c body = true ->
  Fnmatch.matches
    [Fnmatch.Class false (map Fnmatch.Single (list_ascii_of_string body))]
    (String c EmptyString) = true.
Proof.
  intros H. simpl. rewrite andb_true_r. unfold Fnmatch.class_matches; simpl xorb.
  induction body as [|b body IH]; simpl in *; [discriminate|].
  apply orb_true_iff in H as [H|H]; [rewrite H; reflexivity|].
  rewrite (IH H). apply orb_true_r.
Qed.

Lemma letter_not_hidden (body : string) (c : ascii) :
  Str.mem "." body = false -> Str.mem c body = true ->
  Glob._ishidden (String c EmptyString) = false.
Proof.
  intros Hd Hc.
  destruct (Ascii.eqb_spec c ".") as [->|Hne]; [congruence|].
  destruct c as [[] [] [] [] [] [] [] []]; try reflexivity. congruence.
Qed.

(** What [[locale]] and [[id]] select: the listed one-letter names out of
    the letters between the brackets. *)
Lemma glob1_letters_iff (tree : FS.node) (d body n : string) (dironly : bool) :
  Fnmatch.translate ("[" ++ body ++ "]")
  = [Fnmatch.Class false (map Fnmatch.Single (list_ascii_of_string body))] ->
  Glob._ishidden ("[" ++ body ++ "]") = false ->
  Str.mem "." body = false ->
  In n (Glob._glob1 tree d ("[" ++ body ++ "]") dironly)
  <-> exists c : ascii,
        n = String c EmptyString /\ Str.mem c body = true
        /\ In n (Glob._listdir tree d dironly).
Proof.
  intros Ht Hp Hd. split.
  - intros H. apply glob1_listed in H as [Hl Hm]. rewrite Ht in Hm.
    apply class_matches_one_char in Hm as [c [-> Hc]].
    exists c. auto.
  - intros [c [-> [Hc Hl]]]. apply glob1_intro; auto.
    + eapply letter_not_hidden; eauto.
    + rewrite Ht. apply one_char_matches_class. exact Hc.
Qed.

(** X2.  In a well-formed tree the wildcard pattern yields exactly the
    pages [src/app/<n1>/account/orders/<n2>/page.tsx] that exist, where
    [n1] is a sub-directory shown by listing [src/app], [n2] one shown by
    listing that locale's orders directory, and neither name begins with
    a dot: each star stands for one directory level, hidden directories
    are passed over. *)
Theorem wildcard_pattern_selects_one_level_visible_directories
        (tree : FS.node) (f : string) :
  FS.wf tree = true ->
  In f (Glob.glob tree "src/app/*/account/orders/*/page.tsx")
  <-> exists n1 n2 : string,
        f = Layout.page_path n1 n2
        /\ In n1 (Glob._listdir tree "src/app" true)
        /\ Glob._ishidden n1 = false
        /\ In n2 (Glob._listdir tree (Layout.orders_path n1) true)
        /\ Glob._ishidden n2 = false
        /\ FS.lexists tree (Layout.page_path n1 n2) = true.
Proof.
  intros Hw. rewrite glob_second_pattern, (skeleton_iff tree "*" "*" f Hw).
  split.
  - intros [n1 [n2 [E [H1 [H2 Hx]]]]].
    apply glob1_star_iff in H1 as [H1 H1']. apply glob1_star_iff in H2 as [H2 H2'].
    exists n1, n2. auto 10.
  - intros [n1 [n2 [E [H1 [H1' [H2 [H2' Hx]]]]]]].
    exists n1, n2. rewrite !glob1_star_iff. auto 10.
Qed.

Lemma wildcard_pattern_selects_one_level_visible_directories_witness :
  In page_42 (Glob.glob sample_fs "src/app/*/account/orders/*/page.tsx")
  <-> exists n1 n2 : string,
        page_42 = Layout.page_path n1 n2
        /\ In n1 (Glob._listdir sample_fs "src/app" true)
        /\ Glob._ishidden n1 = false
        /\ In n2 (Glob._listdir sample_fs (Layout.orders_path n1) true)
        /\ Glob._ishidden n2 = false
        /\ FS.lexists sample_fs (Layout.page_path n1 n2) = true.
Proof.
  exact (wildcard_pattern_selects_one_level_visible_directories sample_fs page_42 eq_refl).
Defined.

(** X3.  In a well-formed tree the bracket pattern yields exactly the
    pages that exist below a one-letter locale directory named l, o, c,
    a or e and a one-letter order directory named i or d, both shown by
    listing their parent. *)
Theorem bracket_pattern_selects_one_letter_directories
        (tree : FS.node) (f : string) :
  FS.wf tree = true ->
  In f (Glob.glob tree "src/app/[locale]/account/orders/[id]/page.tsx")
  <-> exists c1 c2 : ascii,
        Str.mem c1 "locale" = true /\ Str.mem c2 "id" = true
        /\ f = Layout.page_path (String c1 EmptyString) (String c2 EmptyString)
        /\ In (String c1 EmptyString) (Glob._listdir tree "src/app" true)
        /\ In (String c2 EmptyString)
              (Glob._listdir tree (Layout.orders_path (String c1 EmptyString)) true)
        /\ FS.lexists tree
             (Layout.page_path (String c1 EmptyString) (String c2 EmptyString)) = true.
Proof.
  intros Hw. rewrite glob_first_pattern, (skeleton_iff tree "[locale]" "[id]" f Hw).
  split.
  - intros [n1 [n2 [E [H1 [H2 Hx]]]]].
    apply (glob1_letters_iff tree _ "locale") in H1 as [c1 [-> [Hc1 H1]]];
      [|reflexivity|reflexivity|reflexivity].
    apply (glob1_letters_iff tree _ "id") in H2 as [c2 [-> [Hc2 H2]]];
      [|reflexivity|reflexivity|reflexivity].
    exists c1, c2. auto 10.
  - intros [c1 [c2 [Hc1 [Hc2 [E [H1 [H2 Hx]]]]]]].
    exists (String c1 EmptyString), (String c2 EmptyString).
    split; [exact E|]. split; [|split; [|exact Hx]].
    + apply (glob1_letters_iff tree _ "locale"); [reflexivity|reflexivity|reflexivity|].
      exists c1. auto.
    + apply (glob1_letters_iff tree _ "id"); [reflexivity|reflexivity|reflexivity|].
      exists c2. auto.
Qed.

Lemma bracket_pattern_selects_one_letter_directories_witness :
  In "src/app/e/account/orders/i/page.tsx"
     (Glob.glob sample_fs "src/app/[locale]/account/orders/[id]/page.tsx")
  <-> exists c1 c2 : ascii,
        Str.mem c1 "locale" = true /\ Str.mem c2 "id" = true
        /\ "src/app/e/account/orders/i/page.tsx"
           = Layout.page_path (String c1 EmptyString) (String c2 EmptyString)
        /\ In (String c1 EmptyString) (Glob._listdir sample_fs "src/app" true)
        /\ In (String c2 EmptyString)
              (Glob._listdir sample_fs (Layout.orders_path (String c1 EmptyString)) true)
        /\ FS.lexists sample_fs
             (Layout.page_path (String c1 EmptyString) (String c2 EmptyString)) = true.
Proof.
  exact (bracket_pattern_selects_one_letter_directories
           sample_fs "src/app/e/account/orders/i/page.tsx" eq_refl).
Defined.

(** ** The two patterns together *)

Lemma listing_step_mono (tree : FS.node) (pa pb : string) (ds ds' : list string) (f : string) :
  (forall d n, In n (Glob._glob1 tree d pa true) -> In n (Glob._glob1 tree d pb true)) ->
  (forall d, In d ds -> In d ds') ->
  In f (flat_map (fun d => map (PosixPath.join d) (Glob._glob1 tree d pa true)) ds) ->
  In f (flat_map (fun d => map (PosixPath.join d) (Glob._glob1 tree d pb true)) ds').
Proof.
  intros Hg Hd H. apply in_listing_step in H as [d [n [H [Hn ->]]]].
  apply (step_intro (fun d => Glob._glob1 tree d pb true)); auto.
Qed.

Lemma fixed_step_mono (tree : FS.node) (b : string) (dironly : bool)
      (ds ds' : list string) (f : string) :
  (forall d, In d ds -> In d ds') ->
  In f (flat_map (fun d => map (PosixPath.join d) (Glob._glob0 tree d b dironly)) ds) ->
  In f (flat_map (fun d => map (PosixPath.join d) (Glob._glob0 tree d b dironly)) ds').
Proof.
  intros Hd H. apply in_fixed_step in H as [d [H [Hn ->]]].
  apply (step_intro (fun d => Glob._glob0 tree d b dironly)); auto.
Qed.

Lemma letters_within_star (tree : FS.node) (body d n : string) :
  Fnmatch.translate ("[" ++ body ++ "]")
  = [Fnmatch.Class false (map Fnmatch.Single (list_ascii_of_string body))] ->
  Str.mem "." body = false ->
  In n (Glob._glob1 tree d ("[" ++ body ++ "]") true) ->
  In n (Glob._glob1 tree d "*" true).
Proof.
  intros Ht Hd H. apply glob1_listed in H as [Hl Hm]. rewrite Ht in Hm.
  apply class_matches_one_char in Hm as [c [-> Hc]].
  apply glob1_star_iff. split; [exact Hl|].
  eapply letter_not_hidden; eauto.
Qed.

Lemma first_pattern_within_second (tree : FS.node) (f : string) :
  In f (Glob.glob tree "src/app/[locale]/account/orders/[id]/page.tsx") ->
  In f (Glob.glob tree "src/app/*/account/orders/*/page.tsx").
Proof.
  rewrite glob_first_pattern, glob_second_pattern.
  apply fixed_step_mono. intros d4.
  apply listing_step_mono.
  { intros d n. apply (letters_within_star tree "id"); reflexivity. }
  intros d3. apply fixed_step_mono. intros d2. apply fixed_step_mono. intros d1.
  apply listing_step_mono; [|auto].
  intros d n. apply (letters_within_star tree "locale"); reflexivity.
Qed.

Lemma first_pattern_match_accepted (tree : FS.node) (f : string) :
  In f (Glob.glob tree "src/app/[locale]/account/orders/[id]/page.tsx") ->
  ReadOrders.accepted f = true.
Proof.
  intros H. apply first_pattern_shape in H as [c1 [c2 [_ [_ ->]]]].
  unfold ReadOrders.accepted. apply andb_true_iff. split.
  - apply contains_iff.
    exists ("src/app/" ++ String c1 "/account/")%string,
           ("/" ++ String c2 "/page.tsx")%string. reflexivity.
  - apply endswith_iff.
    exists ("src/app/" ++ String c1 ("/account/orders/" ++ String c2 "/page"))%string.
    reflexivity.
Qed.

Lemma found_paths_output (tree : FS.node) :
  Trace.found_paths (ReadOrders.output tree)
  = List.filter ReadOrders.accepted
      (Glob.glob tree "src/app/[locale]/account/orders/[id]/page.tsx")
    ++ List.filter ReadOrders.accepted
         (Glob.glob tree "src/app/*/account/orders/*/page.tsx").
Proof. rewrite output_spec, found_paths_app, !found_paths_loop. reflexivity. Qed.

(** X4.  Whatever the tree, a path the bracket pattern yields is also
    yielded by the wildcard pattern; the run therefore announces it at
    least twice. *)
Theorem every_bracket_match_is_found_again_by_the_wildcards
        (tree : FS.node) (f : string) :
  In f (Glob.glob tree "src/app/[locale]/account/orders/[id]/page.tsx") ->
  In f (Glob.glob tree "src/app/*/account/orders/*/page.tsx")
  /\ 2 <= count_occ string_dec (Trace.found_paths (ReadOrders.output tree)) f.
Proof.
  intros H1.
  pose proof (first_pattern_within_second tree f H1) as H2.
  pose proof (first_pattern_match_accepted tree f H1) as Ha.
  split; [exact H2|].
  rewrite found_paths_output, count_occ_app.
  assert (C1 : In f (List.filter ReadOrders.accepted
                       (Glob.glob tree "src/app/[locale]/account/orders/[id]/page.tsx")))
    by (apply filter_In; auto).
  assert (C2 : In f (List.filter ReadOrders.accepted
                       (Glob.glob tree "src/app/*/account/orders/*/page.tsx")))
    by (apply filter_In; auto).
  apply (count_occ_In string_dec) in C1. apply (count_occ_In string_dec) in C2. lia.
Qed.

Lemma every_bracket_match_is_found_again_by_the_wildcards_witness :
  In "src/app/e/account/orders/i/page.tsx"
     (Glob.glob sample_fs "src/app/*/account/orders/*/page.tsx")
  /\ 2 <= count_occ string_dec (Trace.found_paths (ReadOrders.output sample_fs))
            "src/app/e/account/orders/i/page.tsx".
Proof.
  apply (every_bracket_match_is_found_again_by_the_wildcards sample_fs).
  vm_compute. left; reflexivity.
Defined.

(** ** The shape of a report *)

Lemma lines_for_block (tree : FS.node) (f : string) :
  Trace.lines_for tree f = []
  \/ (exists text, Trace.lines_for tree f = [Py.Found f; Py.Separator; Py.Content text])
  \/ (exists e, Trace.lines_for tree f = [Py.Found f; Py.ErrorReading f e]).
Proof.
  rewrite (lines_for_events tree 0 f). unfold Trace.visit_events.
  destruct (ReadOrders.accepted f); [|left; reflexivity]. right.
  destruct (FS.lookup tree f) as [[[|] data|l es]|]; simpl;
    try (right; eexists; reflexivity).
  destruct (TextIO.read_all data); [left|right]; eexists; reflexivity.
Qed.

Lemma well_formed_blocks (tree : FS.node) (files : list string) :
  Report.well_formed (flat_map (Trace.lines_for tree) files) = true.
Proof.
  induction files as [|f rest IH]; [reflexivity|].
  cbn [flat_map].
  destruct (lines_for_block tree f) as [-> | [[text ->] | [e ->]]]; simpl.
  - exact IH.
  - exact IH.
  - rewrite String.eqb_refl. exact IH.
Qed.

Lemma well_formed_app (l1 l2 : list Py.out_line) :
  Report.well_formed l1 = true -> Report.well_formed l2 = true ->
  Report.well_formed (l1 ++ l2) = true.
Proof.
  revert l1. fix go 1. intros l1 H1 H2.
  destruct l1 as [|o1 r1]; [exact H2|].
  destruct o1 as [f| |c|f e]; try discriminate.
  destruct r1 as [|o2 r2]; [discriminate|].
  destruct o2 as [f2| |c2|f2 e2]; try discriminate.
  - destruct r2 as [|o3 r3]; [discriminate|].
    destruct o3 as [f3| |c3|f3 e3]; try discriminate.
    simpl in *. apply go; assumption.
  - simpl in *. apply andb_true_iff in H1 as [Hf H1].
    rewrite Hf. simpl. apply go; assumption.
Qed.

(** One turn of the inner loop under a standard output that refuses
    lines: it leaves the tree alone and no file open; when it returns it
    has printed nothing or one whole block, when it raises it has printed
    at most the beginning of one; and an [Error reading] line it prints
    names the candidate and reports what opening or reading it raised,
    or what a refused line raised. *)
Lemma visit_unless_cases (refuses : Py.out_line -> option Py.exn) (f : string) (w : Py.world) :
  Py.open_files w = [] ->
  exists (r : Py.outcome unit) (w' : Py.world) (blk : list Py.out_line),
    ReadOrders.visit (ReadOrders.print_unless refuses) f w = (r, w')
    /\ Py.fs w' = Py.fs w
    /\ Py.open_files w' = []
    /\ Py.printed (Py.log w') = Py.printed (Py.log w) ++ blk
    /\ match r with
       | Py.Ok _ =>
           forall (p : bool) (rest : list Py.out_line),
             Report.blocks p (blk ++ rest) = Report.blocks p rest
       | Py.Raise _ => Report.blocks true blk = true
       end
    /\ (forall (f' : string) (e : Py.exn),
          In (Py.ErrorReading f' e) blk ->
          f' = f
          /\ (fst (Py.with_open f Py.read (Py.initial (Py.fs w))) = Py.Raise e
              \/ exists l, refuses l = Some e)).
Proof.
  destruct w as [tree tbl n lg]; cbn [Py.open_files Py.fs]; intros ->.
  unfold ReadOrders.visit.
  destruct (ReadOrders.accepted f).
  2:{ exists (Py.Ok tt), (Py.mkWorld tree [] n lg), [].
      repeat split; cbn; rewrite ?app_nil_r; auto; contradiction. }
  unfold Py.bind, ReadOrders.print_unless, Py.try_except_Exception,
    ReadOrders.read_and_print, Py.with_open, Py.open_r, Py.print, Py.emit.
  cbn [Py.fs Py.log Py.open_files Py.next_handle].
  destruct (refuses (Py.Found f)) as [e0|] eqn:R0.
  { exists (Py.Raise e0), (Py.mkWorld tree [] n lg), [].
    repeat split; cbn; rewrite ?app_nil_r; auto; contradiction. }
  assert (Fin : forall (r : Py.outcome unit) (nh : nat) (evs : list Py.event),
            match r with
            | Py.Ok _ =>
                forall (p : bool) (rest : list Py.out_line),
                  Report.blocks p (Py.printed evs ++ rest) = Report.blocks p rest
            | Py.Raise _ => Report.blocks true (Py.printed evs) = true
            end ->
            (forall (f' : string) (e : Py.exn),
               In (Py.ErrorReading f' e) (Py.printed evs) ->
               f' = f
               /\ (fst (Py.with_open f Py.read (Py.initial tree)) = Py.Raise e
                   \/ exists l, refuses l = Some e)) ->
            exists (r' : Py.outcome unit) (w' : Py.world) (blk : list Py.out_line),
              (r, Py.mkWorld tree [] nh (lg ++ evs)) = (r', w')
              /\ Py.fs w' = tree /\ Py.open_files w' = []
              /\ Py.printed (Py.log w') = Py.printed lg ++ blk
              /\ match r' with
                 | Py.Ok _ =>
                     forall (p : bool) (rest : list Py.out_line),
                       Report.blocks p (blk ++ rest) = Report.blocks p rest
                 | Py.Raise _ => Report.blocks true blk = true
                 end
              /\ (forall (f' : string) (e : Py.exn),
                    In (Py.ErrorReading f' e) blk ->
                    f' = f
                    /\ (fst (Py.with_open f Py.read (Py.initial tree)) = Py.Raise e
                        \/ exists l, refuses l = Some e))).
  { intros r nh evs H G. exists r, (Py.mkWorld tree [] nh (lg ++ evs)), (Py.printed evs).
    repeat split; auto; try (cbn [Py.log]; apply printed_app); apply (G f' e); assumption. }
  pose proof (open_and_read_cases tree f) as W.
  cbn [Py.fs Py.log Py.open_files Py.next_handle].
  destruct (FS.lookup tree f) as [[[|] data|l es]|] eqn:E;
    cbn [Py.is_Exception Py.fs Py.log Py.open_files Py.next_handle].
  - (* the file opens *)
    unfold Py.bind, Py.read, Py.close, Py.emit.
    cbn [Py.fs Py.log Py.open_files Py.next_handle Py.path_of].
    rewrite Nat.eqb_refl, E.
    destruct (TextIO.read_all data) as [text|] eqn:RA;
      cbn [Py.is_Exception Py.fs Py.log Py.open_files Py.next_handle fst List.filter];
      rewrite ?Nat.eqb_refl; cbn [negb].
    + destruct (refuses Py.Separator) as [e1|] eqn:R1;
        cbn [Py.fs Py.log Py.open_files Py.next_handle fst List.filter];
        rewrite ?Nat.eqb_refl; cbn [negb].
      * destruct (Py.is_Exception e1).
        -- destruct (refuses (Py.ErrorReading f e1)) as [e2|] eqn:R2;
             rewrite <- ?app_assoc; cbn [app]; apply Fin; cbn;
               intros; rewrite ?String.eqb_refl; try reflexivity;
               repeat match goal with H : _ \/ _ |- _ => destruct H end;
               try discriminate; try contradiction;
               match goal with H : Py.ErrorReading _ _ = Py.ErrorReading _ _ |- _ =>
                 injection H as <- <- end; eauto.
        -- rewrite <- ?app_assoc; cbn [app]; apply Fin; cbn;
             intros; try reflexivity;
             repeat match goal with H : _ \/ _ |- _ => destruct H end;
             try discriminate; contradiction.
      * destruct (refuses (Py.Content text)) as [e1|] eqn:R1';
          cbn [Py.fs Py.log Py.open_files Py.next_handle fst List.filter];
          rewrite ?Nat.eqb_refl; cbn [negb].
        -- destruct (Py.is_Exception e1).
           ++ destruct (refuses (Py.ErrorReading f e1)) as [e2|] eqn:R2;
                rewrite <- ?app_assoc; cbn [app]; apply Fin; cbn;
                  intros; rewrite ?String.eqb_refl; try reflexivity;
                  repeat match goal with H : _ \/ _ |- _ => destruct H end;
                  try discriminate; try contradiction;
                  match goal with H : Py.ErrorReading _ _ = Py.ErrorReading _ _ |- _ =>
                    injection H as <- <- end; eauto.
           ++ rewrite <- ?app_assoc; cbn [app]; apply Fin; cbn;
                intros; try reflexivity;
                repeat match goal with H : _ \/ _ |- _ => destruct H end;
                try discriminate; contradiction.
        -- rewrite <- ?app_assoc; cbn [app]; apply Fin; cbn;
             intros; try reflexivity;
             repeat match goal with H : _ \/ _ |- _ => destruct H end;
             try discriminate; contradiction.
    + destruct (refuses (Py.ErrorReading f (Py.UnicodeDecodeError data))) as [e2|] eqn:R2;
        rewrite <- ?app_assoc; cbn [app]; apply Fin; cbn;
          intros; rewrite ?String.eqb_refl; try reflexivity;
          repeat match goal with H : _ \/ _ |- _ => destruct H end;
          try discriminate; try contradiction;
          match goal with H : Py.ErrorReading _ _ = Py.ErrorReading _ _ |- _ =>
            injection H as <- <- end; eauto.
  - destruct (refuses (Py.ErrorReading f (Py.PermissionError f))) as [e2|] eqn:R2;
      rewrite <- ?app_assoc; cbn [app]; apply Fin; cbn;
        intros; rewrite ?String.eqb_refl; try reflexivity;
        repeat match goal with H : _ \/ _ |- _ => destruct H end;
        try discriminate; try contradiction;
        match goal with H : Py.ErrorReading _ _ = Py.ErrorReading _ _ |- _ =>
          injection H as <- <- end; eauto.
  - destruct (refuses (Py.ErrorReading f (Py.IsADirectoryError f))) as [e2|] eqn:R2;
      rewrite <- ?app_assoc; cbn [app]; apply Fin; cbn;
        intros; rewrite ?String.eqb_refl; try reflexivity;
        repeat match goal with H : _ \/ _ |- _ => destruct H end;
        try discriminate; try contradiction;
        match goal with H : Py.ErrorReading _ _ = Py.ErrorReading _ _ |- _ =>
          injection H as <- <- end; eauto.
  - destruct (refuses (Py.ErrorReading f (Py.FileNotFoundError f))) as [e2|] eqn:R2;
      rewrite <- ?app_assoc; cbn [app]; apply Fin; cbn;
        intros; rewrite ?String.eqb_refl; try reflexivity;
        repeat match goal with H : _ \/ _ |- _ => destruct H end;
        try discriminate; try contradiction;
        match goal with H : Py.ErrorReading _ _ = Py.ErrorReading _ _ |- _ =>
          injection H as <- <- end; eauto.
Qed.

Lemma loop_unless_cases (refuses : Py.out_line -> option Py.exn)
      (files : list string) (w : Py.world) :
  Py.open_files w = [] ->
  exists (r : Py.outcome unit) (w' : Py.world) (os : list Py.out_line),
    Py.for_each files (ReadOrders.visit (ReadOrders.print_unless refuses)) w = (r, w')
    /\ Py.fs w' = Py.fs w
    /\ Py.open_files w' = []
    /\ Py.printed (Py.log w') = Py.printed (Py.log w) ++ os
    /\ match r with
       | Py.Ok _ =>
           forall (p : bool) (rest : list Py.out_line),
             Report.blocks p (os ++ rest) = Report.blocks p rest
       | Py.Raise _ => Report.blocks true os = true
       end
    /\ (forall (f' : string) (e : Py.exn),
          In (Py.ErrorReading f' e) os ->
          fst (Py.with_open f' Py.read (Py.initial (Py.fs w))) = Py.Raise e
          \/ exists l, refuses l = Some e).
Proof.
  revert w; induction files as [|f rest IH]; intros w Hw.
  - exists (Py.Ok tt), w, []. cbn [Py.for_each]. unfold Py.ret.
    repeat split; auto; try (rewrite app_nil_r; reflexivity). intros f' e [].
  - cbn [Py.for_each]. unfold Py.bind.
    destruct (visit_unless_cases refuses f w Hw)
      as (r1 & w1 & blk & E1 & F1 & O1 & P1 & B1 & G1).
    rewrite E1. destruct r1 as [[]|e1].
    + destruct (IH w1 O1) as (r2 & w2 & os & E2 & F2 & O2 & P2 & B2 & G2).
      exists r2, w2, (blk ++ os). rewrite E2.
      split; [reflexivity|]. split; [congruence|]. split; [exact O2|].
      split; [rewrite P2, P1, app_assoc; reflexivity|]. split.
      * destruct r2 as [[]|e2].
        -- intros p rest'. rewrite <- app_assoc, B1. apply B2.
        -- rewrite B1. exact B2.
      * intros f' e Hin. apply in_app_or in Hin as [Hin|Hin].
        -- destruct (G1 f' e Hin) as [-> G]. exact G.
        -- rewrite <- F1. apply G2. exact Hin.
    + exists (Py.Raise e1), w1, blk.
      repeat split; auto. intros f' e Hin. destruct (G1 f' e Hin) as [-> G]. exact G.
Qed.

Lemma script_unless_cases (refuses : Py.out_line -> option Py.exn)
      (pats : list string) (w : Py.world) :
  Py.open_files w = [] ->
  exists (r : Py.outcome unit) (w' : Py.world) (os : list Py.out_line),
    Py.for_each pats
      (fun pattern =>
         Py.bind (ReadOrders.glob_glob pattern)
           (fun files =>
              Py.for_each files (ReadOrders.visit (ReadOrders.print_unless refuses)))) w
    = (r, w')
    /\ Py.fs w' = Py.fs w
    /\ Py.open_files w' = []
    /\ Py.printed (Py.log w') = Py.printed (Py.log w) ++ os
    /\ match r with
       | Py.Ok _ =>
           forall (p : bool) (rest : list Py.out_line),
             Report.blocks p (os ++ rest) = Report.blocks p rest
       | Py.Raise _ => Report.blocks true os = true
       end
    /\ (forall (f' : string) (e : Py.exn),
          In (Py.ErrorReading f' e) os ->
          fst (Py.with_open f' Py.read (Py.initial (Py.fs w))) = Py.Raise e
          \/ exists l, refuses l = Some e).
Proof.
  revert w; induction pats as [|pat rest IH]; intros w Hw.
  - exists (Py.Ok tt), w, []. cbn [Py.for_each]. unfold Py.ret.
    repeat split; auto; try (rewrite app_nil_r; reflexivity). intros f' e [].
  - cbn [Py.for_each]. unfold Py.bind at 1 2. unfold ReadOrders.glob_glob at 1.
    destruct (loop_unless_cases refuses (Glob.glob (Py.fs w) pat) w Hw)
      as (r1 & w1 & blk & E1 & F1 & O1 & P1 & B1 & G1).
    rewrite E1. destruct r1 as [[]|e1].
    + destruct (IH w1 O1) as (r2 & w2 & os & E2 & F2 & O2 & P2 & B2 & G2).
      exists r2, w2, (blk ++ os). rewrite E2.
      split; [reflexivity|]. split; [congruence|]. split; [exact O2|].
      split; [rewrite P2, P1, app_assoc; reflexivity|]. split.
      * destruct r2 as [[]|e2].
        -- intros p rest'. rewrite <- app_assoc, B1. apply B2.
        -- rewrite B1. exact B2.
      * intros f' e Hin. apply in_app_or in Hin as [Hin|Hin].
        -- apply G1. exact Hin.
        -- rewrite <- F1. apply G2. exact Hin.
    + exists (Py.Raise e1), w1, blk. repeat split; auto.
Qed.

(** X5.  Whatever the tree and whichever lines standard output refuses,
    what a run has printed is a sequence of blocks, each a [Found] line
    followed by the separator and the content, or by an [Error reading]
    line for that same path, which may come after the separator; only a
    run that an uncaught failure cuts short can stop inside its last
    block, after the [Found] line or after the separator.  With a
    standard output that takes every line each block is the [Found]
    line with the separator and the content, or with the [Error reading]
    line. *)
Theorem every_report_is_a_sequence_of_blocks
        (refuses : Py.out_line -> option Py.exn) (tree : FS.node) :
  Report.blocks true
    (Py.printed (Py.log (snd (ReadOrders.script ReadOrders.glob_glob
                                (ReadOrders.print_unless refuses) (Py.initial tree)))))
  = true
  /\ match fst (ReadOrders.script ReadOrders.glob_glob
                  (ReadOrders.print_unless refuses) (Py.initial tree)) with
     | Py.Ok _ =>
         Report.blocks false
           (Py.printed (Py.log (snd (ReadOrders.script ReadOrders.glob_glob
                                       (ReadOrders.print_unless refuses) (Py.initial tree)))))
         = true
     | Py.Raise _ => True
     end
  /\ Report.well_formed (ReadOrders.output tree) = true.
Proof.
  unfold ReadOrders.script.
  destruct (script_unless_cases refuses ReadOrders.patterns (Py.initial tree) eq_refl)
    as (r & w & os & E & _ & _ & P & B & _).
  rewrite E. cbn [fst snd]. cbn [Py.initial Py.log Py.printed app] in P. rewrite P.
  split; [|split].
  - destruct r as [[]|e]; [|exact B].
    rewrite <- (app_nil_r os), B. reflexivity.
  - destruct r as [[]|e]; [|exact I].
    rewrite <- (app_nil_r os), B. reflexivity.
  - rewrite output_spec. apply well_formed_app; apply well_formed_blocks.
Qed.

(** ** The errors a run can report *)

Lemma glob_match_exists (tree : FS.node) (pattern f : string) :
  FS.wf tree = true ->
  In pattern ReadOrders.patterns -> In f (Glob.glob tree pattern) ->
  FS.lexists tree f = true.
Proof.
  intros Hw [<-|[<-|[]]] H.
  - rewrite glob_first_pattern in H.
    apply (skeleton_iff tree _ _ f Hw) in H as [n1 [n2 [-> [_ [_ H]]]]]. exact H.
  - rewrite glob_second_pattern in H.
    apply (skeleton_iff tree _ _ f Hw) in H as [n1 [n2 [-> [_ [_ H]]]]]. exact H.
Qed.

Lemma output_line_origin (tree : FS.node) (o : Py.out_line) :
  In o (ReadOrders.output tree) ->
  exists pattern f,
    In pattern ReadOrders.patterns /\ In f (Glob.glob tree pattern)
    /\ In o (Trace.lines_for tree f).
Proof.
  rewrite output_spec. intros H. apply in_app_or in H as [H|H];
    apply in_flat_map in H as [f [Hf Ho]].
  - exists "src/app/[locale]/account/orders/[id]/page.tsx", f.
    split; [left; reflexivity|auto].
  - exists "src/app/*/account/orders/*/page.tsx", f.
    split; [right; left; reflexivity|auto].
Qed.

Lemma ascii_is_utf8 (data : string) :
  forallb (fun c => Nat.leb (TextIO.byte c) 127) (list_ascii_of_string data) = true ->
  TextIO.utf8_valid data = true.
Proof.
  induction data as [|c data IH]; [reflexivity|].
  cbn [list_ascii_of_string forallb]. intros H.
  apply andb_true_iff in H as [Hc Hd].
  cbn [TextIO.utf8_valid]. rewrite Hc. apply IH. exact Hd.
Qed.

Lemma invalid_utf8_has_high_byte (data : string) :
  TextIO.utf8_valid data = false ->
  existsb (fun c => Nat.leb 128 (TextIO.byte c)) (list_ascii_of_string data) = true.
Proof.
  intros H.
  destruct (existsb (fun c => Nat.leb 128 (TextIO.byte c)) (list_ascii_of_string data)) eqn:E;
    [reflexivity|].
  rewrite ascii_is_utf8 in H; [discriminate|].
  apply forallb_forall. intros c Hc.
  assert (Hn : Nat.leb 128 (TextIO.byte c) = false).
  { destruct (Nat.leb 128 (TextIO.byte c)) eqn:Ec; [|reflexivity].
    assert (X : existsb (fun c => Nat.leb 128 (TextIO.byte c)) (list_ascii_of_string data) = true)
      by (apply existsb_exists; exists c; auto).
    congruence. }
  apply Nat.leb_le. apply Nat.leb_gt in Hn. lia.
Qed.

(** X6.  A decoding error is reported only for a readable file whose
    bytes are not well-formed UTF-8, and such a file holds a byte of 128
    or more: a file of ASCII bytes is never reported as undecodable.
    This is so whichever lines standard output refuses, as long as what
    [print] raises is an exception of its own and not one of [open] or
    [read]. *)
Theorem decoding_errors_come_from_bytes_beyond_ascii
        (refuses : Py.out_line -> option Py.exn) (tree : FS.node) (f data : string) :
  (forall (l : Py.out_line) (e : Py.exn),
     refuses l = Some e -> exists name b, e = Py.Foreign name b) ->
  In (Py.ErrorReading f (Py.UnicodeDecodeError data))
     (Py.printed (Py.log (snd (ReadOrders.script ReadOrders.glob_glob
                                 (ReadOrders.print_unless refuses) (Py.initial tree))))) ->
  FS.lookup tree f = Some (FS.File true data)
  /\ TextIO.utf8_valid data = false
  /\ existsb (fun c => Nat.leb 128 (TextIO.byte c)) (list_ascii_of_string data) = true.
Proof.
  intros Hr. unfold ReadOrders.script.
  destruct (script_unless_cases refuses ReadOrders.patterns (Py.initial tree) eq_refl)
    as (r & w & os & E & _ & _ & P & _ & G).
  rewrite E. cbn [snd]. cbn [Py.initial Py.log Py.printed app] in P. rewrite P.
  intros Hin. destruct (G f _ Hin) as [H|[l H]].
  - cbn [Py.initial Py.fs] in H. rewrite open_and_read_cases in H.
    destruct (FS.lookup tree f) as [[[|] d|l es]|]; try discriminate.
    unfold TextIO.read_all in H.
    destruct (TextIO.utf8_valid d) eqn:V; [discriminate|].
    injection H as ->. repeat split; auto. apply invalid_utf8_has_high_byte. exact V.
  - destruct (Hr l _ H) as [name [b Hf]]. discriminate.
Qed.

Lemma decoding_errors_come_from_bytes_beyond_ascii_witness :
  FS.lookup (single_page_fs undecodable) page_42 = Some (FS.File true undecodable)
  /\ TextIO.utf8_valid undecodable = false
  /\ existsb (fun c => Nat.leb 128 (TextIO.byte c)) (list_ascii_of_string undecodable) = true.
Proof.
  apply (decoding_errors_come_from_bytes_beyond_ascii
           (fun l => match l with
                     | Py.Content _ => Some (Py.Foreign "UnicodeEncodeError" true)
                     | _ => None
                     end)
           (single_page_fs undecodable) page_42 undecodable).
  - intros l e H. destruct l; try discriminate. injection H as <-. eauto.
  - vm_compute. right; left. reflexivity.
Defined.

(** ** Failures that are not errors *)

(** X7.  An exception that does not derive from [Exception] (an
    interrupt, say) raised while the content is being printed is not
    caught by the [except] clause: the file is closed on the way out, no
    [Error reading] line is printed, the remaining candidates are not
    visited and the exception leaves the loop. *)
Theorem interrupt_while_printing_content_ends_the_loop
        (tree : FS.node) (f data : string) (rest : list string) (e : Py.exn) :
  ReadOrders.accepted f = true ->
  FS.lookup tree f = Some (FS.File true data) ->
  TextIO.utf8_valid data = true ->
  Py.is_Exception e = false ->
  Py.for_each (f :: rest)
    (ReadOrders.visit (ReadOrders.print_failing_on_content e)) (Py.initial tree)
  = (Py.Raise e,
     Py.mkWorld tree [] 1
       [ Py.EvPrint (Py.Found f); Py.EvOpen f 0; Py.EvRead 0;
         Py.EvPrint Py.Separator; Py.EvClose 0 ]).
Proof.
  intros Ha Hl Hv He.
  cbn [Py.for_each]. unfold Py.bind at 1.
  unfold ReadOrders.visit. rewrite Ha.
  unfold Py.bind, Py.try_except_Exception, ReadOrders.read_and_print,
    Py.with_open, Py.open_r, ReadOrders.print_failing_on_content, Py.print,
    Py.emit, Py.initial.
  cbn [Py.fs Py.log Py.open_files Py.next_handle app].
  rewrite Hl.
  unfold Py.bind, Py.read.
  cbn [Py.fs Py.log Py.open_files Py.next_handle app Py.path_of].
  rewrite Nat.eqb_refl, Hl.
  unfold TextIO.read_all. rewrite Hv.
  unfold Py.emit, Py.close.
  cbn [Py.fs Py.log Py.open_files Py.next_handle app fst List.filter].
  rewrite He, Nat.eqb_refl. reflexivity.
Qed.

Lemma interrupt_while_printing_content_ends_the_loop_witness :
  Py.for_each [page_42; "src/app/e/account/orders/i/page.tsx"]
    (ReadOrders.visit
       (ReadOrders.print_failing_on_content (Py.Foreign "KeyboardInterrupt" false)))
    (Py.initial sample_fs)
  = (Py.Raise (Py.Foreign "KeyboardInterrupt" false),
     Py.mkWorld sample_fs [] 1
       [ Py.EvPrint (Py.Found page_42); Py.EvOpen page_42 0; Py.EvRead 0;
         Py.EvPrint Py.Separator; Py.EvClose 0 ]).
Proof.
  exact (interrupt_while_printing_content_ends_the_loop
           sample_fs page_42 "X" ["src/app/e/account/orders/i/page.tsx"]
           (Py.Foreign "KeyboardInterrupt" false) eq_refl eq_refl eq_refl eq_refl).
Defined.

(** ** Line endings *)

Lemma universal_newlines_no_cr (data : string) :
  Str.mem "013" (TextIO.universal_newlines data) = false.
Proof.
  induction data as [|c data IH]; [reflexivity|].
  destruct (Ascii.eqb_spec c "013") as [->|Hne].
  - destruct data as [|d data]; [reflexivity|].
    destruct (Ascii.eqb_spec d "010") as [->|Hd].
    + simpl in IH. simpl. exact IH.
    + assert (E : TextIO.universal_newlines (String "013" (String d data))
                  = String "010" (TextIO.universal_newlines (String d data))).
      { simpl. destruct d as [[] [] [] [] [] [] [] []]; try reflexivity. congruence. }
      rewrite E. cbn [Str.mem]. rewrite IH. reflexivity.
  - assert (E : TextIO.universal_newlines (String c data)
                = String c (TextIO.universal_newlines data)).
    { simpl. destruct c as [[] [] [] [] [] [] [] []]; try reflexivity. congruence. }
    rewrite E. cbn [Str.mem]. rewrite IH.
    destruct (Ascii.eqb_spec "013" c) as [<-|_]; [congruence|reflexivity].
Qed.

(** X8.  No content line a run prints holds a carriage return: the text
    mode in which the files are opened hands every line ending over as
    a line feed. *)
Theorem printed_content_has_no_carriage_return (tree : FS.node) (text : string) :
  In (Py.Content text) (ReadOrders.output tree) ->
  Str.mem "013" text = false.
Proof.
  intros H. apply output_line_origin in H as [pattern [f [_ [_ H]]]].
  rewrite (lines_for_events tree 0 f) in H. unfold Trace.visit_events in H.
  destruct (ReadOrders.accepted f); [|destruct H].
  destruct (FS.lookup tree f) as [[[|] data|l es]|]; simpl in H;
    try (destruct H as [H|[H|[]]]; discriminate).
  unfold TextIO.read_all in H.
  destruct (TextIO.utf8_valid data); simpl in H.
  - destruct H as [H|[H|[H|[]]]]; try discriminate.
    injection H as <-. apply universal_newlines_no_cr.
  - destruct H as [H|[H|[]]]; discriminate.
Qed.

Lemma printed_content_has_no_carriage_return_witness :
  Str.mem "013" lf_text = false.
Proof.
  apply (printed_content_has_no_carriage_return (single_page_fs crlf_text) lf_text).
  vm_compute. right; right; left. reflexivity.
Defined.

(** ** No path is yielded twice by one pattern *)

Lemma nodupb_NoDup (l : list string) : FS.nodupb l = true -> NoDup l.
Proof.
  induction l as [|x l IH]; simpl; intros H; constructor.
  - apply andb_true_iff in H as [H _]. apply negb_true_iff in H.
    intros Hin.
    assert (X : existsb (String.eqb x) l = true).
    { apply existsb_exists. exists x. split; [exact Hin|apply String.eqb_refl]. }
    congruence.
  - apply andb_true_iff in H as [_ H]. apply IH. exact H.
Qed.

Lemma wf_scandir_distinct (tree : FS.node) (path : string) (es : list (string * FS.node)) :
  FS.wf tree = true -> FS.scandir tree path = Some es -> NoDup (map fst es).
Proof.
  intros Hw. unfold FS.scandir, FS.lookup.
  destruct (Str.is_empty path || Str.startswith path "/"); [discriminate|].
  destruct (FS.walk tree (Str.split_on PosixPath.sep path)) as [[r d|[|] es']|] eqn:E;
    try discriminate.
  intros [= <-]. pose proof (wf_walk _ _ _ Hw E) as H. simpl in H.
  apply andb_true_iff in H as [H _]. apply andb_true_iff in H as [_ H].
  apply nodupb_NoDup. exact H.
Qed.

Lemma NoDup_map_fst_filter {A B} (p : A * B -> bool) (es : list (A * B)) :
  NoDup (map fst es) -> NoDup (map fst (List.filter p es)).
Proof.
  induction es as [|[k v] es IH]; simpl; intros H; [constructor|].
  apply NoDup_cons_iff in H as [Hk H].
  destruct (p (k, v)); simpl; [|apply IH; exact H].
  constructor; [|apply IH; exact H].
  intros Hin. apply Hk.
  apply in_map_iff in Hin as [[k' v'] [E Hin]]. simpl in E. subst k'.
  apply filter_In in Hin as [Hin _].
  apply in_map_iff. exists (k, v'). auto.
Qed.

Lemma glob1_distinct (tree : FS.node) (d pat : string) (dironly : bool) :
  FS.wf tree = true -> NoDup (Glob._glob1 tree d pat dironly).
Proof.
  intros Hw. unfold Glob._glob1, Fnmatch.filter.
  apply NoDup_filter.
  assert (N : NoDup (Glob._listdir tree d dironly)).
  { unfold Glob._listdir.
    destruct (FS.scandir tree (if Str.is_empty d then "." else d)) as [es|] eqn:E;
      [|constructor].
    apply NoDup_map_fst_filter. eapply wf_scandir_distinct; eauto. }
  destruct (negb (Glob._ishidden pat)); [apply NoDup_filter|]; exact N.
Qed.

Lemma glob0_distinct (tree : FS.node) (d b : string) (dironly : bool) :
  NoDup (Glob._glob0 tree d b dironly).
Proof.
  unfold Glob._glob0.
  destruct (negb (Str.is_empty b));
    [destruct (FS.lexists tree (Glob._join d b))|destruct (FS.isdir tree d)];
    repeat constructor; intros [].
Qed.

(** Cutting a path at its last slash. *)
Lemma rpartition_without_sep (c : ascii) (n : string) :
  Str.mem c n = false -> Str.rpartition_incl c n = (EmptyString, n).
Proof.
  induction n as [|d n IH]; [reflexivity|].
  cbn [Str.mem]. intros H. apply orb_false_iff in H as [Hd Hn].
  cbn [Str.rpartition_incl]. rewrite (IH Hn). cbn [Str.is_empty].
  rewrite Ascii.eqb_sym, Hd. reflexivity.
Qed.

Lemma rpartition_at_last_sep (c : ascii) (d n : string) :
  Str.mem c n = false ->
  Str.rpartition_incl c (d ++ String c n)%string = ((d ++ String c EmptyString)%string, n).
Proof.
  intros Hn. induction d as [|x d IH].
  - cbn [append Str.rpartition_incl]. rewrite (rpartition_without_sep c n Hn).
    cbn [Str.is_empty]. rewrite Ascii.eqb_refl. reflexivity.
  - cbn [append Str.rpartition_incl]. rewrite IH.
    destruct d; reflexivity.
Qed.

Lemma append_char_injective (d d' : string) (c : ascii) :
  (d ++ String c EmptyString)%string = (d' ++ String c EmptyString)%string -> d = d'.
Proof.
  revert d'; induction d as [|x d IH]; intros [|y d']; simpl; intros H.
  - reflexivity.
  - injection H as _ H. destruct d'; discriminate.
  - injection H as _ H. destruct d; discriminate.
  - injection H as -> H. f_equal. apply IH. exact H.
Qed.

Lemma slash_cut_unique (d d' n n' : string) :
  Str.mem "/" n = false -> Str.mem "/" n' = false ->
  (d ++ "/" ++ n)%string = (d' ++ "/" ++ n')%string ->
  d = d' /\ n = n'.
Proof.
  intros Hn Hn' E.
  pose proof (rpartition_at_last_sep "/" d n Hn) as P.
  pose proof (rpartition_at_last_sep "/" d' n' Hn') as P'.
  change (String "/" n) with ("/" ++ n)%string in P.
  change (String "/" n') with ("/" ++ n')%string in P'.
  rewrite E, P' in P. injection P as E1 E2.
  split; [|auto]. symmetry. eapply append_char_injective; eauto.
Qed.

(** One step of the expansion keeps the paths distinct, as long as what
    is appended is a single path component. *)
Lemma step_distinct (g : string -> list string) (ds : list string) :
  (forall d, In d ds -> Str.is_empty d = false /\ Str.endswith d "/" = false) ->
  NoDup ds ->
  (forall d n, In n (g d) -> Str.is_empty n = false /\ Str.mem "/" n = false) ->
  (forall d, NoDup (g d)) ->
  NoDup (flat_map (fun d => map (PosixPath.join d) (g d)) ds)
  /\ (forall f, In f (flat_map (fun d => map (PosixPath.join d) (g d)) ds) ->
        Str.is_empty f = false /\ Str.endswith f "/" = false).
Proof.
  intros Hds Hnd Hg Hgd.
  assert (J : forall d n, In d ds -> In n (g d) ->
                PosixPath.join d n = (d ++ "/" ++ n)%string).
  { intros d n Hd Hn. destruct (Hds d Hd) as [D1 D2]. destruct (Hg d n Hn) as [N1 N2].
    apply join_plain; auto. apply mem_startswith. exact N2. }
  split.
  - induction ds as [|d ds IH]; [constructor|].
    cbn [flat_map]. apply NoDup_cons_iff in Hnd as [Hd Hnd].
    apply NoDup_app.
    + assert (S : forall l, NoDup l -> (forall n, In n l -> In n (g d)) ->
                    NoDup (map (PosixPath.join d) l)).
      { induction l as [|n l IHl]; intros Hl Hsub; [constructor|].
        apply NoDup_cons_iff in Hl as [Hn Hl]. cbn [map]. constructor.
        - intros Hin. apply in_map_iff in Hin as [n' [E Hn']].
          rewrite (J d n), (J d n') in E; try (left; reflexivity);
            try (apply Hsub; simpl; auto).
          apply slash_cut_unique in E as [_ E].
          + subst n'. contradiction.
          + apply (Hg d). apply Hsub; simpl; auto.
          + apply (Hg d). apply Hsub; simpl; auto.
        - apply IHl; [exact Hl|]. intros m Hm. apply Hsub. simpl; auto. }
      apply S; auto.
    + apply IH; auto.
      * intros d' Hd'. apply Hds. right; exact Hd'.
      * intros d' n Hd' Hn. apply J; [right; exact Hd'|exact Hn].
    + intros f Hf1 Hf2.
      apply in_map_iff in Hf1 as [n [<- Hn]].
      apply in_flat_map in Hf2 as [d' [Hd' Hf2]].
      apply in_map_iff in Hf2 as [n' [E Hn']].
      rewrite (J d n), (J d' n') in E; auto; try (left; reflexivity); try (right; exact Hd').
      apply slash_cut_unique in E as [E _].
      * subst d'. contradiction.
      * apply (Hg d'). exact Hn'.
      * apply (Hg d). exact Hn.
  - intros f Hf. apply in_flat_map in Hf as [d [Hd Hf]].
    apply in_map_iff in Hf as [n [<- Hn]].
    rewrite (J d n Hd Hn). destruct (Hds d Hd) as [D1 D2]. destruct (Hg d n Hn) as [N1 N2].
    split.
    + destruct d; [discriminate|reflexivity].
    + change (d ++ "/" ++ n)%string with (d ++ String "/" n)%string.
      rewrite endswith_nonempty_append; [|reflexivity].
      change (String "/" n) with ("/" ++ n)%string.
      rewrite endswith_nonempty_append; [|exact N1].
      destruct (Str.endswith n "/") eqn:E; [|reflexivity].
      apply endswith_char_mem in E. congruence.
Qed.

Lemma glob0_component (tree : FS.node) (d b n : string) (dironly : bool) :
  Str.is_empty b = false -> Str.mem "/" b = false ->
  In n (Glob._glob0 tree d b dironly) ->
  Str.is_empty n = false /\ Str.mem "/" n = false.
Proof.
  intros Hb Hm. unfold Glob._glob0. rewrite Hb. simpl negb.
  destruct (FS.lexists tree (Glob._join d b)); [|intros []].
  intros [<-|[]]. auto.
Qed.

Lemma glob1_component (tree : FS.node) (d pat n : string) (dironly : bool) :
  FS.wf tree = true ->
  In n (Glob._glob1 tree d pat dironly) ->
  Str.is_empty n = false /\ Str.mem "/" n = false.
Proof.
  intros Hw H. pose proof (glob1_names_ok _ _ _ _ _ Hw H) as Ho.
  unfold FS.name_ok in Ho.
  repeat (apply andb_true_iff in Ho as [Ho ?]).
  apply negb_true_iff in Ho.
  split; [exact Ho|]. apply negb_true_iff. assumption.
Qed.

Lemma skeleton_distinct (tree : FS.node) (pat1 pat2 : string) :
  FS.wf tree = true ->
  NoDup (flat_map (fun d => map (PosixPath.join d) (Glob._glob0 tree d "page.tsx" false))
      (flat_map (fun d => map (PosixPath.join d) (Glob._glob1 tree d pat2 true))
         (flat_map (fun d => map (PosixPath.join d) (Glob._glob0 tree d "orders" true))
            (flat_map (fun d => map (PosixPath.join d) (Glob._glob0 tree d "account" true))
               (flat_map (fun d => map (PosixPath.join d) (Glob._glob1 tree d pat1 true))
                  ["src/app"]))))).
Proof.
  intros Hw.
  assert (S0 : (forall d, In d ["src/app"] ->
                  Str.is_empty d = false /\ Str.endswith d "/" = false)
               /\ NoDup ["src/app"]).
  { split; [intros d [<-|[]]; split; reflexivity|repeat constructor; intros []]. }
  destruct S0 as [P0 N0].
  destruct (step_distinct (fun d => Glob._glob1 tree d pat1 true) _ P0 N0) as [N1 P1].
  { intros d n. apply glob1_component; exact Hw. }
  { intros d. apply glob1_distinct; exact Hw. }
  destruct (step_distinct (fun d => Glob._glob0 tree d "account" true) _ P1 N1) as [N2 P2].
  { intros d n. apply glob0_component; reflexivity. }
  { intros d. apply glob0_distinct. }
  destruct (step_distinct (fun d => Glob._glob0 tree d "orders" true) _ P2 N2) as [N3 P3].
  { intros d n. apply glob0_component; reflexivity. }
  { intros d. apply glob0_distinct. }
  destruct (step_distinct (fun d => Glob._glob1 tree d pat2 true) _ P3 N3) as [N4 P4].
  { intros d n. apply glob1_component; exact Hw. }
  { intros d. apply glob1_distinct; exact Hw. }
  destruct (step_distinct (fun d => Glob._glob0 tree d "page.tsx" false) _ P4 N4) as [N5 _].
  { intros d n. apply glob0_component; reflexivity. }
  { intros d. apply glob0_distinct. }
  exact N5.
Qed.

Lemma glob_matches_accepted (tree : FS.node) (pattern : string) :
  FS.wf tree = true -> In pattern ReadOrders.patterns ->
  List.filter ReadOrders.accepted (Glob.glob tree pattern) = Glob.glob tree pattern.
Proof.
  intros Hw Hp. apply forallb_filter_id. apply forallb_forall. intros f Hf.
  destruct Hp as [<-|[<-|[]]].
  - rewrite glob_first_pattern in Hf. eapply skeleton_matches_accepted; eauto.
  - rewrite glob_second_pattern in Hf. eapply skeleton_matches_accepted; eauto.
Qed.

(** X9.  In a well-formed tree neither pattern yields a path twice, so a
    run announces no path more than twice: exactly twice the paths the
    bracket pattern yields, exactly once those only the wildcard pattern
    yields, and no other. *)
Theorem every_page_is_announced_once_or_twice (tree : FS.node) (f : string) :
  FS.wf tree = true ->
  NoDup (Glob.glob tree "src/app/[locale]/account/orders/[id]/page.tsx")
  /\ NoDup (Glob.glob tree "src/app/*/account/orders/*/page.tsx")
  /\ count_occ string_dec (Trace.found_paths (ReadOrders.output tree)) f
     = (if in_dec string_dec f
             (Glob.glob tree "src/app/[locale]/account/orders/[id]/page.tsx")
        then 2
        else if in_dec string_dec f (Glob.glob tree "src/app/*/account/orders/*/page.tsx")
             then 1 else 0).
Proof.
  intros Hw.
  assert (N1 : NoDup (Glob.glob tree "src/app/[locale]/account/orders/[id]/page.tsx"))
    by (rewrite glob_first_pattern; apply skeleton_distinct; exact Hw).
  assert (N2 : NoDup (Glob.glob tree "src/app/*/account/orders/*/page.tsx"))
    by (rewrite glob_second_pattern; apply skeleton_distinct; exact Hw).
  split; [exact N1|]. split; [exact N2|].
  rewrite found_paths_output, count_occ_app.
  rewrite !glob_matches_accepted by (auto; unfold ReadOrders.patterns; simpl; auto).
  pose proof (proj1 (NoDup_count_occ string_dec _) N1 f) as C1.
  pose proof (proj1 (NoDup_count_occ string_dec _) N2 f) as C2.
  destruct (in_dec string_dec f
              (Glob.glob tree "src/app/[locale]/account/orders/[id]/page.tsx")) as [I1|I1].
  - pose proof (first_pattern_within_second tree f I1) as I2.
    apply (count_occ_In string_dec) in I1. apply (count_occ_In string_dec) in I2. lia.
  - apply (count_occ_not_In string_dec) in I1. rewrite I1.
    destruct (in_dec string_dec f (Glob.glob tree "src/app/*/account/orders/*/page.tsx"))
      as [I2|I2].
    + apply (count_occ_In string_dec) in I2. lia.
    + apply (count_occ_not_In string_dec) in I2. lia.
Qed.

Lemma every_page_is_announced_once_or_twice_witness :
  count_occ string_dec (Trace.found_paths (ReadOrders.output sample_fs)) page_42 = 1.
Proof.
  exact (proj2 (proj2 (every_page_is_announced_once_or_twice sample_fs page_42 eq_refl))).
Defined.

(** ** Directories that cannot be listed *)

Lemma glob1_unlistable (tree : FS.node) (d pat : string) (dironly : bool) :
  Str.is_empty d = false -> FS.scandir tree d = None ->
  Glob._glob1 tree d pat dironly = [].
Proof.
  intros Hd Hs. unfold Glob._glob1, Glob._listdir. rewrite Hd, Hs.
  destruct (negb (Glob._ishidden pat)); reflexivity.
Qed.

(** X10.  When [src/app] is missing, is not a directory or cannot be
    listed, neither pattern yields anything: the run prints nothing and
    ends normally.  The failed listing is not reported. *)
Theorem unlistable_app_directory_gives_an_empty_report (tree : FS.node) :
  FS.scandir tree "src/app" = None ->
  Glob.glob tree "src/app/[locale]/account/orders/[id]/page.tsx" = []
  /\ Glob.glob tree "src/app/*/account/orders/*/page.tsx" = []
  /\ ReadOrders.run tree = (Py.Ok tt, Py.initial tree)
  /\ ReadOrders.output tree = [].
Proof.
  intros Hs.
  assert (G1 : Glob.glob tree "src/app/[locale]/account/orders/[id]/page.tsx" = []).
  { rewrite glob_first_pattern. cbn [flat_map].
    rewrite (glob1_unlistable tree "src/app" _ true eq_refl Hs). reflexivity. }
  assert (G2 : Glob.glob tree "src/app/*/account/orders/*/page.tsx" = []).
  { rewrite glob_second_pattern. cbn [flat_map].
    rewrite (glob1_unlistable tree "src/app" _ true eq_refl Hs). reflexivity. }
  split; [exact G1|]. split; [exact G2|].
  assert (R : ReadOrders.run tree = (Py.Ok tt, Py.initial tree)).
  { rewrite run_spec, G1, G2. reflexivity. }
  split; [exact R|].
  unfold ReadOrders.output. rewrite R. reflexivity.
Qed.

Lemma unlistable_app_directory_gives_an_empty_report_witness :
  ReadOrders.output
    (FS.Dir true
       [("src", FS.Dir true
          [("app", FS.Dir false
             [("en", orders_dir [("42", FS.Dir true [("page.tsx", page "X")])])])])])
  = [].
Proof.
  refine (proj2 (proj2 (proj2 (unlistable_app_directory_gives_an_empty_report _ _)))).
  reflexivity.
Defined.

(** ** One attempt per announcement *)

Lemma attempted_app (l1 l2 : list Py.event) :
  Report.attempted (l1 ++ l2) = Report.attempted l1 ++ Report.attempted l2.
Proof.
  induction l1 as [|ev l1 IH]; [reflexivity|].
  destruct ev; simpl; rewrite IH; reflexivity.
Qed.

Lemma attempted_visit_events (tree : FS.node) (h : nat) (f : string) :
  Report.attempted (Trace.visit_events tree h f)
  = Trace.found_paths (Py.printed (Trace.visit_events tree h f)).
Proof.
  unfold Trace.visit_events.
  destruct (ReadOrders.accepted f); [|reflexivity].
  destruct (FS.lookup tree f) as [[[|] data|l es]|]; simpl; try reflexivity.
  destruct (TextIO.read_all data); reflexivity.
Qed.

Lemma attempted_loop_events (tree : FS.node) (h : nat) (files : list string) :
  Report.attempted (Trace.loop_events tree h files)
  = Trace.found_paths (Py.printed (Trace.loop_events tree h files)).
Proof.
  revert h; induction files as [|f rest IH]; intros h; [reflexivity|].
  cbn [Trace.loop_events].
  rewrite attempted_app, printed_app, found_paths_app, IH, attempted_visit_events.
  reflexivity.
Qed.

(** X11.  Whatever the tree, the paths a run tries to open are, in order
    and with repetitions, the paths it announces: every [Found] line is
    followed by one attempt to open that path, there is no retry and
    nothing else is ever opened. *)
Theorem each_announced_path_is_tried_once (tree : FS.node) :
  Report.attempted (Py.log (snd (ReadOrders.run tree)))
  = Trace.found_paths (ReadOrders.output tree).
Proof.
  unfold ReadOrders.output. rewrite run_spec. cbn [snd Py.log].
  rewrite attempted_app, printed_app, found_paths_app, !attempted_loop_events.
  reflexivity.
Qed.
